(** * The question router of rag_engine.py

    A shallow embedding of [retrieve_context] and [employee_field_response]
    (src/rag_engine.py), together with the properties of the router that the
    specification states.

    Conventions of the embedding.
    - A Python [str] is a Rocq [string]; a character is a code point below
      256 (the Latin-1 block, of which ASCII is the lower half).  The
      character classes below are the ones CPython uses on that block for
      [str.lower], [str.isspace] (also [str.strip], [str.split] and the
      regex class [\s]), [str.isdigit], the regex class [\d] and the regex
      word class behind [\b].
    - Integers are unbounded ([Z], [N], [nat]).  [int] converts a decimal
      string of at most 4300 digits and raises [ValueError] beyond that:
      the limit CPython has by default.  The numeric columns of the
      employee table hold integers; the text columns hold strings (pandas
      reads an empty cell as a missing value, not as the empty string).
    - The employee table and the holiday list are read from data files when
      the module is imported; they are parameters of the development, as are
      the two library calls [datetime.strptime(_, "%d-%b-%y")] and
      [vectorstore.similarity_search(_, k)].
    - The module-level variable [last_employee] and the clock read by
      [datetime.today()] are passed explicitly: the router takes the pointer
      and the current instant and returns the result with the new pointer. *)

From Stdlib Require Import List String Ascii Bool Arith ZArith NArith Lia.
From Stdlib Require Import DecimalString DecimalN DecimalNat DecimalZ.
Import ListNotations.

Local Open Scope string_scope.
Local Open Scope bool_scope.

(** ** Characters *)

Module Char.

Definition code (c : ascii) : N := N_of_ascii c.

Definition between (lo hi : N) (c : ascii) : bool :=
  (lo <=? code c)%N && (code c <=? hi)%N.

(** [str.isspace] on one character: TAB..CR, FS..US, SPACE, NEL, NBSP. *)
Definition isspace (c : ascii) : bool :=
  between 9 13 c || between 28 32 c || (code c =? 133)%N || (code c =? 160)%N.

(** The regex class [\d] and the digits [int] accepts: the decimal digits. *)
Definition isdecimal (c : ascii) : bool := between 48 57 c.

(** [str.isdigit] on one character: the decimal digits and the superscript
    digits U+00B2, U+00B3 and U+00B9. *)
Definition isdigit (c : ascii) : bool :=
  isdecimal c || between 178 179 c || (code c =? 185)%N.

(** The digits of [str.isdigit] that [int] rejects. *)
Definition issuperscript (c : ascii) : bool := isdigit c && negb (isdecimal c).

Definition isupper (c : ascii) : bool :=
  between 65 90 c || between 192 214 c || between 216 222 c.

Definition isalpha (c : ascii) : bool :=
  between 65 90 c || between 97 122 c
  || (code c =? 170)%N || (code c =? 181)%N || (code c =? 186)%N
  || between 192 214 c || between 216 246 c || between 248 255 c.

(** The regex word class: alphanumeric (which counts the vulgar fractions
    U+00BC..U+00BE as numeric) or the underscore. *)
Definition isword (c : ascii) : bool :=
  isalpha c || isdigit c || between 188 190 c || (code c =? 95)%N.

(** [str.lower] on one character: every upper-case letter of the block has
    its lower-case form 32 code points above it. *)
Definition lower (c : ascii) : ascii :=
  if isupper c then ascii_of_N (code c + 32) else c.

End Char.

(** ** Strings *)

Module Str.

Definition nl : string := String "010"%char "".

Definition is_empty (s : string) : bool :=
  match s with "" => true | String _ _ => false end.

Fixpoint all (p : ascii -> bool) (s : string) : bool :=
  match s with
  | "" => true
  | String c s' => p c && all p s'
  end.

(** [s.lower()] *)
Fixpoint lower (s : string) : string :=
  match s with
  | "" => ""
  | String c s' => String (Char.lower c) (lower s')
  end.

Fixpoint lstrip (s : string) : string :=
  match s with
  | "" => ""
  | String c s' => if Char.isspace c then lstrip s' else s
  end.

Fixpoint rstrip (s : string) : string :=
  match s with
  | "" => ""
  | String c s' =>
      let r := rstrip s' in
      if Char.isspace c && is_empty r then "" else String c r
  end.

(** [s.strip()] *)
Definition strip (s : string) : string := rstrip (lstrip s).

(** [s.startswith(p)], returning what follows the prefix. *)
Fixpoint strip_prefix (p s : string) : option string :=
  match p with
  | "" => Some s
  | String a p' =>
      match s with
      | "" => None
      | String b s' => if Ascii.eqb a b then strip_prefix p' s' else None
      end
  end.

Definition startswith (p s : string) : bool :=
  match strip_prefix p s with Some _ => true | None => false end.

(** [p in s] *)
Fixpoint contains (p s : string) : bool :=
  startswith p s ||
  match s with
  | "" => false
  | String _ s' => contains p s'
  end.

(** [any(w in s for w in ws)] *)
Definition contains_any (ws : list string) (s : string) : bool :=
  existsb (fun w => contains w s) ws.

(** The longest prefix of characters in a class, and the rest. *)
Fixpoint span (p : ascii -> bool) (s : string) : string * string :=
  match s with
  | "" => ("", "")
  | String c s' =>
      if p c then let (a, b) := span p s' in (String c a, b) else ("", s)
  end.

(** [s.split()]: the maximal runs of non-space characters, in order. *)
Fixpoint split_from (cur s : string) : list string :=
  match s with
  | "" => if is_empty cur then [] else [cur]
  | String c s' =>
      if Char.isspace c
      then (if is_empty cur then split_from "" s' else cur :: split_from "" s')
      else split_from (cur ++ String c "") s'
  end.

Definition split (s : string) : list string := split_from "" s.

(** [s.isdigit()]: at least one character, all of them digits. *)
Definition isdigit (s : string) : bool := negb (is_empty s) && all Char.isdigit s.

(** The number of digits up to which [int] converts a decimal string:
    [sys.int_info.default_max_str_digits], the value of
    [sys.get_int_max_str_digits()] in an interpreter started without
    options. *)
Definition default_max_str_digits : N := 4300.

(** [int(s)] on a string without sign, blanks or underscores: [None] stands
    for [ValueError], which is what the empty string, a character that is
    no decimal digit and a string of more than [default_max_str_digits]
    digits come to.  Leading zeros count as digits. *)
Definition to_int (s : string) : option N :=
  if (default_max_str_digits <? N.of_nat (String.length s))%N then None
  else option_map N.of_uint (NilZero.uint_of_string s).

(** [str(n)] and the [{n}] of an f-string, for integers. *)
Definition of_N (n : N) : string := NilZero.string_of_uint (N.to_uint n).
Definition of_nat (n : nat) : string := NilZero.string_of_uint (Nat.to_uint n).
Definition of_Z (z : Z) : string := NilZero.string_of_int (Z.to_int z).

(** [sep.join(ls)] *)
Definition join (sep : string) (ls : list string) : string := String.concat sep ls.

End Str.

(** ** Regular expressions of the router *)

Module Re.

(** The alternation of the salary pattern, in the order it is written. *)
Definition conditions : list string :=
  ["greater than"; "more than"; "above"; "less than"; "below"; ">"; "<"].

(** What follows the alternation: [\s*(\d+)].  Both stars are greedy, and
    giving back blanks or digits cannot help, since a blank is no digit and
    nothing follows the digits.  The result is group 2. *)
Definition amount_after (s : string) : option string :=
  let (ds, _) := Str.span Char.isdecimal (snd (Str.span Char.isspace s)) in
  if Str.is_empty ds then None else Some ds.

(** The pattern anchored at the head of [s]: the first alternative, in
    order, after which the rest of the pattern matches.  The result is
    (group 1, group 2). *)
Fixpoint salary_at (alts : list string) (s : string) : option (string * string) :=
  match alts with
  | [] => None
  | a :: alts' =>
      match Str.strip_prefix a s with
      | Some rest =>
          match amount_after rest with
          | Some ds => Some (a, ds)
          | None => salary_at alts' s
          end
      | None => salary_at alts' s
      end
  end.

(** [re.search(r"(greater than|more than|above|less than|below|>|<)\s*(\d+)", s)]:
    the match at the leftmost position that has one. *)
Fixpoint salary_search (s : string) : option (string * string) :=
  match salary_at conditions s with
  | Some m => Some m
  | None =>
      match s with
      | "" => None
      | String _ s' => salary_search s'
      end
  end.

Definition head_isword (s : string) : bool :=
  match s with "" => false | String c _ => Char.isword c end.

Fixpoint last_isword (before : bool) (s : string) : bool :=
  match s with
  | "" => before
  | String c s' => last_isword (Char.isword c) s'
  end.

(** [\b]: exactly one of the two neighbouring characters is a word
    character, the ends of the string counting as non-word. *)
Definition boundary (before after : bool) : bool := xorb before after.

(** [\b lit \b] anchored at the head of [s], where [before] tells whether
    the character in front of [s] is a word character. *)
Definition word_at (lit : string) (before : bool) (s : string) : bool :=
  boundary before (head_isword s) &&
  match Str.strip_prefix lit s with
  | Some rest => boundary (last_isword before lit) (head_isword rest)
  | None => false
  end.

Fixpoint word_search_from (lit : string) (before : bool) (s : string) : bool :=
  word_at lit before s ||
  match s with
  | "" => false
  | String c s' => word_search_from lit (Char.isword c) s'
  end.

(** [re.search(r"\b" + re.escape(lit) + r"\b", s)] as a truth value. *)
Definition word_search (lit s : string) : bool := word_search_from lit false s.

(** [re.fullmatch(r"how many employees\??", s)] as a truth value. *)
Definition fullmatch_how_many_employees (s : string) : bool :=
  match Str.strip_prefix "how many employees" s with
  | Some rest => String.eqb rest "?" || String.eqb rest ""
  | None => false
  end.

End Re.

(** ** Data model *)

(** A row of data/employees.csv, with the columns the router reads. *)
Record Employee := mkEmployee {
  Emp_ID : Z;
  Emp_Name : string;
  Age : Z;
  Gender : string;
  Salary : Z;
  Designation : string;
  Email : string;
  Phone_Number : string;
  Experience_Years : Z
}.

(** An entry of the ["holidays"] list of data/holidays.json. *)
Record Holiday := mkHoliday {
  occasion : string;
  date : string;
  day : string
}.

(** A naive [datetime] value: the calendar day, as the number of the day
    on the time line, and the time of day, in microseconds since midnight.
    Values are compared by day first and by time of day within a day. *)
Module DateTime.

Record t := make { day_number : Z; time_of_day : Z }.

Definition lt (a b : t) : Prop :=
  (day_number a < day_number b \/
   (day_number a = day_number b /\ time_of_day a < time_of_day b))%Z.

Definition le (a b : t) : Prop :=
  (day_number a < day_number b \/
   (day_number a = day_number b /\ time_of_day a <= time_of_day b))%Z.

Definition ltb (a b : t) : bool :=
  (day_number a <? day_number b)%Z ||
  ((day_number a =? day_number b)%Z && (time_of_day a <? time_of_day b)%Z).

Definition leb (a b : t) : bool :=
  (day_number a <? day_number b)%Z ||
  ((day_number a =? day_number b)%Z && (time_of_day a <=? time_of_day b)%Z).

(** The first instant of a day. *)
Definition midnight (day : Z) : t := make day 0.

End DateTime.

Definition datetime := DateTime.t.

(** What a call of [retrieve_context] comes to: a returned string, a
    returned [None], or an exception. *)
Inductive result :=
| Text (s : string)
| NoneValue
| Raised.

(** The three ways a block of the router ends: it returns an answer, it
    falls through to the next block, or it raises. *)
Inductive outcome (A : Type) :=
| Return (a : A)
| Fallthrough
| Raise.
Arguments Return {A} a.
Arguments Fallthrough {A}.
Arguments Raise {A}.

(** ** Field responses *)

(** [employee_field_response(row, q)] *)
Definition employee_field_response (row : Employee) (q : string) : string :=
  if Str.contains "age" q then
    Emp_Name row ++ " is " ++ Str.of_Z (Age row) ++ " years old."
  else if Str.contains "gender" q then
    Emp_Name row ++ " is " ++ Gender row ++ "."
  else if Str.contains "salary" q then
    Emp_Name row ++ "'s salary is " ++ Str.of_Z (Salary row) ++ "."
  else if Str.contains "designation" q then
    Emp_Name row ++ " works as " ++ Designation row ++ "."
  else if Str.contains "email" q then
    Emp_Name row ++ "'s email is " ++ Email row ++ "."
  else if Str.contains "phone" q then
    Emp_Name row ++ "'s phone number is " ++ Phone_Number row ++ "."
  else if Str.contains "experience" q then
    Emp_Name row ++ " has " ++ Str.of_Z (Experience_Years row)
      ++ " years of experience."
  else if Str.contains "details" q || Str.contains "who is" q then
    Emp_Name row ++ " is a " ++ Designation row ++ " with "
      ++ Str.of_Z (Experience_Years row) ++ " years of experience. "
      ++ "Salary: " ++ Str.of_Z (Salary row) ++ "."
  else "Information not available.".

(** ** The router *)

Section Router.

(** [employee_df], in row order. *)
Variable employee_df : list Employee.
(** [holiday_data["holidays"]], in list order. *)
Variable holidays : list Holiday.
(** [datetime.strptime(s, "%d-%b-%y")]; [None] stands for [ValueError].
    The format has no time fields, so the library gives midnight of the
    day it reads; the router does not depend on that. *)
Variable strptime : string -> option datetime.
(** [[doc.page_content for doc in vectorstore.similarity_search(query, k)]] *)
Variable similarity_search : string -> nat -> list string.

(** *** 1. Salary filter *)

Definition is_greater (condition : string) : bool :=
  existsb (String.eqb condition) ["greater than"; "more than"; "above"; ">"].

Definition salary_rows (condition : string) (amount : Z) : list Employee :=
  if is_greater condition
  then filter (fun e => (amount <? Salary e)%Z) employee_df
  else filter (fun e => (Salary e <? amount)%Z) employee_df.

Definition salary_line (row : Employee) : string :=
  Emp_Name row ++ " - " ++ Str.of_Z (Salary row).

Definition salary_answer (q condition : string) (amount : Z) : string :=
  let filtered := salary_rows condition amount in
  if Str.contains "list" q then
    match filtered with
    | [] => "No employees found."
    | _ => "Employees matching salary condition:" ++ Str.nl
             ++ Str.join Str.nl (map salary_line filtered)
    end
  else Str.of_nat (List.length filtered) ++ " employees match the salary condition.".

Definition salary_filter (q : string) : outcome string :=
  match Re.salary_search q with
  | Some (condition, digits) =>
      if Str.contains "salary" q then
        match Str.to_int digits with
        | Some amount => Return (salary_answer q condition (Z.of_N amount))
        | None => Raise
        end
      else Fallthrough
  | None => Fallthrough
  end.

(** *** 2. Count holidays *)

Definition count_holidays (q : string) : option string :=
  if Str.contains "holiday" q && Str.contains "how many" q
  then Some ("There are " ++ Str.of_nat (List.length holidays) ++ " holidays in 2026.")
  else None.

(** *** 3. List holidays *)

Definition holiday_line (h : Holiday) : string :=
  occasion h ++ " - " ++ date h ++ " (" ++ day h ++ ")".

Definition list_holidays (q : string) : option string :=
  if Str.contains "holiday" q && Str.contains_any ["list"; "show"; "what"] q
  then Some ("Here are the company holidays:" ++ Str.nl
               ++ Str.join Str.nl (map holiday_line holidays))
  else None.

(** *** 4. Upcoming holiday *)

(** The loop over the holidays, with its two variables [upcoming] and
    [upcoming_date]; [None] stands for the [ValueError] of [strptime]. *)
Fixpoint upcoming_scan (today : datetime) (hs : list Holiday)
    (upcoming : option Holiday) (upcoming_date : option datetime)
    : option (option Holiday) :=
  match hs with
  | [] => Some upcoming
  | holiday :: hs' =>
      match strptime (date holiday) with
      | None => None
      | Some h_date =>
          if DateTime.leb today h_date then
            match upcoming_date with
            | None => upcoming_scan today hs' (Some holiday) (Some h_date)
            | Some d =>
                if DateTime.ltb h_date d
                then upcoming_scan today hs' (Some holiday) (Some h_date)
                else upcoming_scan today hs' upcoming upcoming_date
            end
          else upcoming_scan today hs' upcoming upcoming_date
      end
  end.

(** What the two loop variables hold once the holidays [done] have been
    seen: nothing if none of them is on or after [today]; otherwise a
    holiday of [done] on or after [today] that is strictly earlier than
    every such holiday before it and not later than any after it. *)
Inductive scanned (today : datetime) (done : list Holiday)
    : option Holiday -> option datetime -> Prop :=
| scanned_none :
    (forall h d, In h done -> strptime (date h) = Some d ->
                 DateTime.lt d today) ->
    scanned today done None None
| scanned_some h d l1 l2 :
    done = (l1 ++ h :: l2)%list ->
    strptime (date h) = Some d ->
    DateTime.le today d ->
    (forall h' d', In h' l1 -> strptime (date h') = Some d' ->
                   DateTime.le today d' -> DateTime.lt d d') ->
    (forall h' d', In h' l2 -> strptime (date h') = Some d' ->
                   DateTime.le today d' -> DateTime.le d d') ->
    scanned today done (Some h) (Some d).

Definition upcoming_sentence (h : Holiday) : string :=
  "Upcoming holiday is " ++ occasion h ++ " on " ++ date h
    ++ " (" ++ day h ++ ").".

Definition upcoming_holiday (today : datetime) (q : string) : outcome string :=
  if Str.contains "upcoming" q && Str.contains "holiday" q then
    match upcoming_scan today holidays None None with
    | None => Raise
    | Some (Some h) => Return (upcoming_sentence h)
    | Some None => Fallthrough
    end
  else Fallthrough.

(** *** 5. Specific holiday *)

Definition holiday_sentence (h : Holiday) : string :=
  occasion h ++ " is on " ++ date h ++ " (" ++ day h ++ ").".

Definition names_holiday (q : string) (h : Holiday) : bool :=
  Re.word_search (Str.lower (occasion h)) q.

Definition specific_holiday (q : string) : option Holiday :=
  find (names_holiday q) holidays.

(** *** 6. Strict employee count *)

Definition employee_count (q : string) : option string :=
  if Re.fullmatch_how_many_employees q
  then Some ("There are " ++ Str.of_nat (List.length employee_df) ++ " employees.")
  else None.

(** *** 7. Employee ID *)

(** [employee_df[employee_df["Emp_ID"] == n]], then [.iloc[0]] when the
    selection is not empty. *)
Definition by_id (n : Z) : option Employee :=
  find (fun e => (Emp_ID e =? n)%Z) employee_df.

Fixpoint id_scan (words : list string) : outcome Employee :=
  match words with
  | [] => Fallthrough
  | word :: words' =>
      if Str.isdigit word then
        match Str.to_int word with
        | None => Raise
        | Some n =>
            match by_id (Z.of_N n) with
            | Some emp => Return emp
            | None => id_scan words'
            end
        end
      else id_scan words'
  end.

Definition id_match (q : string) : outcome Employee := id_scan (Str.split q).

(** *** 8. Employee name *)

Definition name_match (q : string) : option Employee :=
  find (fun row => Str.contains (Str.lower (Emp_Name row)) q) employee_df.

(** *** 9. Pronoun follow-up *)

Definition pronouns : list string := ["his"; "her"; "him"; "he"; "she"].

(** *** 10. Policy *)

Definition policy_words : list string :=
  ["policy"; "leave"; "break"; "working hours"; "attendance"].

Definition rag (question : string) : result :=
  let context := Str.join Str.nl (similarity_search question 2) in
  if Str.is_empty context then NoneValue else Text ("RAG::" ++ context).

(** *** The blocks in sequence

    Each definition is the router from one block to its end; [last_employee]
    is the pointer on entry, and the second component of the value is the
    pointer on exit. *)

Definition state := option Employee.

Definition from_policy (last_employee : state) (question q : string)
    : result * state :=
  if Str.contains_any policy_words q
  then (rag question, last_employee)
  else (Text "Information not available.", last_employee).

Definition from_pronoun (last_employee : state) (question q : string)
    : result * state :=
  match last_employee with
  | Some row =>
      if Str.contains_any pronouns q
      then (Text (employee_field_response row q), last_employee)
      else from_policy last_employee question q
  | None => from_policy last_employee question q
  end.

Definition from_name (last_employee : state) (question q : string)
    : result * state :=
  match name_match q with
  | Some row => (Text (employee_field_response row q), Some row)
  | None => from_pronoun last_employee question q
  end.

Definition from_id (last_employee : state) (question q : string)
    : result * state :=
  match id_match q with
  | Return emp => (Text (employee_field_response emp q), Some emp)
  | Raise => (Raised, last_employee)
  | Fallthrough => from_name last_employee question q
  end.

Definition from_employee_count (last_employee : state) (question q : string)
    : result * state :=
  match employee_count q with
  | Some s => (Text s, last_employee)
  | None => from_id last_employee question q
  end.

Definition from_specific_holiday (last_employee : state) (question q : string)
    : result * state :=
  match specific_holiday q with
  | Some h => (Text (holiday_sentence h), last_employee)
  | None => from_employee_count last_employee question q
  end.

Definition from_upcoming (last_employee : state) (today : datetime)
    (question q : string) : result * state :=
  match upcoming_holiday today q with
  | Return s => (Text s, last_employee)
  | Raise => (Raised, last_employee)
  | Fallthrough => from_specific_holiday last_employee question q
  end.

Definition from_list_holidays (last_employee : state) (today : datetime)
    (question q : string) : result * state :=
  match list_holidays q with
  | Some s => (Text s, last_employee)
  | None => from_upcoming last_employee today question q
  end.

Definition from_count_holidays (last_employee : state) (today : datetime)
    (question q : string) : result * state :=
  match count_holidays q with
  | Some s => (Text s, last_employee)
  | None => from_list_holidays last_employee today question q
  end.

Definition normalize (question : string) : string :=
  Str.strip (Str.lower question).

(** [retrieve_context(question)], called with the pointer [last_employee]
    at the instant [today]. *)
Definition retrieve_context (last_employee : state) (today : datetime)
    (question : string) : result * state :=
  let q := normalize question in
  match salary_filter q with
  | Return s => (Text s, last_employee)
  | Raise => (Raised, last_employee)
  | Fallthrough => from_count_holidays last_employee today question q
  end.

(** *** Which block a question reaches

    A question reaches a block when every block before it falls through. *)

Definition falls {A : Type} (o : outcome A) : bool :=
  match o with Fallthrough => true | _ => false end.

Definition is_none {A : Type} (o : option A) : bool :=
  match o with None => true | Some _ => false end.

Definition reaches_specific_holiday (today : datetime) (q : string) : bool :=
  falls (salary_filter q) && is_none (count_holidays q)
  && is_none (list_holidays q) && falls (upcoming_holiday today q).

Definition reaches_id (today : datetime) (q : string) : bool :=
  reaches_specific_holiday today q
  && is_none (specific_holiday q) && is_none (employee_count q).

Definition reaches_pronoun (today : datetime) (q : string) : bool :=
  reaches_id today q && falls (id_match q) && is_none (name_match q).

(** The pronoun block answers: the pointer holds an employee and a pronoun
    occurs in the question. *)
Definition pronoun_fires (last_employee : state) (q : string) : bool :=
  negb (is_none last_employee) && Str.contains_any pronouns q.

Definition reaches_policy (last_employee : state) (today : datetime)
    (q : string) : bool :=
  reaches_pronoun today q && negb (pronoun_fires last_employee q).

(** The employee a call writes to the pointer, if it writes one: the one
    found by the ID block or, after it, by the name block. *)
Definition resolution (today : datetime) (question : string) : option Employee :=
  let q := normalize question in
  if reaches_id today q then
    match id_match q with
    | Return emp => Some emp
    | Fallthrough => name_match q
    | Raise => None
    end
  else None.

(** *** Sequences of calls *)

(** The pointer after a sequence of calls, each made at its own instant. *)
Fixpoint run (last_employee : state) (calls : list (datetime * string)) : state :=
  match calls with
  | [] => last_employee
  | (today, question) :: calls' =>
      run (snd (retrieve_context last_employee today question)) calls'
  end.

(** The employee written by the latest call of a sequence that wrote one. *)
Definition last_resolution (calls : list (datetime * string)) : option Employee :=
  fold_left
    (fun acc call =>
       match resolution (fst call) (snd call) with
       | Some emp => Some emp
       | None => acc
       end)
    calls None.

(** Every holiday date is in the format [strptime] is called with. *)
Definition dates_parse : Prop :=
  Forall (fun h => strptime (date h) <> None) holidays.

End Router.

(** ** The field formatter as a table

    The formatter as the specification words it: the keyword groups in
    their fixed order, each with its sentence, and the sentence of the
    first group that has a keyword in the question. *)

Definition field_table (row : Employee) : list (list string * string) :=
  [ (["age"], Emp_Name row ++ " is " ++ Str.of_Z (Age row) ++ " years old.");
    (["gender"], Emp_Name row ++ " is " ++ Gender row ++ ".");
    (["salary"], Emp_Name row ++ "'s salary is " ++ Str.of_Z (Salary row) ++ ".");
    (["designation"], Emp_Name row ++ " works as " ++ Designation row ++ ".");
    (["email"], Emp_Name row ++ "'s email is " ++ Email row ++ ".");
    (["phone"], Emp_Name row ++ "'s phone number is " ++ Phone_Number row ++ ".");
    (["experience"], Emp_Name row ++ " has " ++ Str.of_Z (Experience_Years row)
                       ++ " years of experience.");
    (["details"; "who is"],
       Emp_Name row ++ " is a " ++ Designation row ++ " with "
         ++ Str.of_Z (Experience_Years row) ++ " years of experience. "
         ++ "Salary: " ++ Str.of_Z (Salary row) ++ ".") ].

Definition first_keyword_response (row : Employee) (q : string) : string :=
  match find (fun entry => Str.contains_any (fst entry) q) (field_table row) with
  | Some entry => snd entry
  | None => "Information not available."
  end.

(** ** Questions that differ in case and outer blanks *)

(** Two characters that are the same up to letter case. *)
Definition same_letter (a b : ascii) : Prop :=
  a = b \/ a = Char.lower b \/ b = Char.lower a.

Inductive same_letters : string -> string -> Prop :=
| same_nil : same_letters "" ""
| same_cons a b s t :
    same_letter a b -> same_letters s t ->
    same_letters (String a s) (String b t).

Definition blank (s : string) : Prop := Str.all Char.isspace s = true.

(** [a] and [b] are the same text up to letter case, each between blanks
    of its own. *)
Definition differ_in_case_and_outer_blanks (a b : string) : Prop :=
  exists la ca ra lb cb rb,
    a = la ++ ca ++ ra /\ b = lb ++ cb ++ rb /\
    blank la /\ blank ra /\ blank lb /\ blank rb /\
    same_letters ca cb.

(** ** Sample data *)

Module Sample.

Definition asha : Employee :=
  mkEmployee 101 "Asha Rao" 29 "Female" 52000 "Engineer"
    "asha.rao@example.com" "9000000001" 5.
Definition ravi : Employee :=
  mkEmployee 102 "Ravi Kumar" 41 "Male" 98000 "Manager"
    "ravi.kumar@example.com" "9000000002" 17.
Definition meena : Employee :=
  mkEmployee 103 "Meena Iyer" 35 "Female" 75000 "Analyst"
    "meena.iyer@example.com" "9000000003" 11.

Definition employees : list Employee := [asha; ravi; meena].

Definition christmas := mkHoliday "Christmas" "25-Dec-26" "Friday".
Definition republic_day := mkHoliday "Republic Day" "26-Jan-26" "Monday".
Definition ugadi := mkHoliday "Ugadi" "19-Mar-26" "Thursday".
Definition gudi_padwa := mkHoliday "Gudi Padwa" "19-Mar-26" "Thursday".
Definition independence_day := mkHoliday "Independence Day" "15-Aug-26" "Saturday".
Definition holi := mkHoliday "Holi" "04-Mar-26" "Wednesday".

(** In file order, which is not date order. *)
Definition holidays : list Holiday :=
  [christmas; republic_day; ugadi; gudi_padwa; independence_day; holi].

Definition digit (c : ascii) : option Z :=
  if Char.isdecimal c then Some (Z.of_N (Char.code c) - 48)%Z else None.

Definition month (s : string) : option Z :=
  let names := ["jan"; "feb"; "mar"; "apr"; "may"; "jun";
                "jul"; "aug"; "sep"; "oct"; "nov"; "dec"] in
  (fix go (ns : list string) (k : Z) : option Z :=
     match ns with
     | [] => None
     | n :: ns' => if String.eqb n (Str.lower s) then Some k else go ns' (k + 1)%Z
     end) names 1%Z.

(** The number of a day, with every month given 31 days and every year 12
    such months, which keeps the order of days. *)
Definition day_number (y m d : Z) : Z := ((y * 12 + m) * 31 + d)%Z.

Definition at_time (y m d h mi s : Z) : datetime :=
  DateTime.make (day_number y m d) (((h * 60 + mi) * 60 + s) * 1000000)%Z.

(** [strptime(s, "%d-%b-%y")] on the two-digit-day form of the sample
    dates; the instant is midnight of the day. *)
Definition strptime (s : string) : option datetime :=
  match s with
  | String d1 (String d2 (String "-" (String m1 (String m2 (String m3
      (String "-" (String y1 (String y2 "")))))))) =>
      match digit d1, digit d2, month (String m1 (String m2 (String m3 ""))),
            digit y1, digit y2 with
      | Some a, Some b, Some m, Some c, Some d =>
          Some (DateTime.midnight (day_number (2000 + 10 * c + d) m (10 * a + b)))
      | _, _, _, _, _ => None
      end
  | _ => None
  end.

(** An index with two passages about leave and nothing else. *)
Definition similarity_search (query : string) (k : nat) : list string :=
  if Str.contains "leave" (Str.lower query)
  then firstn k ["Employees get 18 days of paid leave a year.";
                 "Leave must be applied for three days ahead."]
  else [].

(** 10 March 2026, half past nine in the morning. *)
Definition today : datetime := at_time 2026 3 10 9 30 0.

(** 19 March 2026, the day of Ugadi, at its first instant and at half past
    nine in the morning; and the morning of Christmas, the last holiday of
    the year. *)
Definition ugadi_midnight : datetime := at_time 2026 3 19 0 0 0.
Definition ugadi_morning : datetime := at_time 2026 3 19 9 30 0.
Definition christmas_morning : datetime := at_time 2026 12 25 9 30 0.

Definition route : state -> datetime -> string -> result * state :=
  retrieve_context employees holidays strptime similarity_search.

(** A holiday whose name ends with a bracket, one whose name begins with
    one, and two that share a name. *)
Definition bakrid := mkHoliday "Bakrid (Eid al-Adha)" "27-May-26" "Wednesday".
Definition optional_holi := mkHoliday "(Optional) Holi" "04-Mar-26" "Wednesday".
Definition eid_in_march := mkHoliday "Eid" "21-Mar-26" "Saturday".
Definition eid_in_may := mkHoliday "Eid" "27-May-26" "Wednesday".

(** The one-character question U+00B2, SUPERSCRIPT TWO. *)
Definition superscript_two : string := String (ascii_of_nat 178) "".

(** ["9" * n] *)
Fixpoint nines (n : nat) : string :=
  match n with
  | O => ""
  | S n' => String "9" (nines n')
  end.

(** A numeral of one digit more than [int] converts. *)
Definition long_numeral : string := nines 4301.

End Sample.

(** * The endpoint of app.py *)

Module App.

(** [s.replace(old, new)] for a non-empty [old]: the occurrences of [old]
    are replaced from left to right, the scan going on after each one.
    [skip] counts the characters of the occurrence just replaced that are
    still to be passed over. *)
Fixpoint replace_from (old new : string) (skip : nat) (s : string) : string :=
  match s with
  | "" => ""
  | String c s' =>
      match skip with
      | S k => replace_from old new k s'
      | O =>
          if Str.startswith old s
          then new ++ replace_from old new (String.length old - 1) s'
          else String c (replace_from old new 0 s')
      end
  end.

Definition replace (old new s : string) : string := replace_from old new 0 s.

(** The f-string of [ask]. *)
Definition prompt (context question : string) : string :=
  Str.nl ++ "You are a strict HR assistant." ++ Str.nl
  ++ "Answer ONLY from the context." ++ Str.nl
  ++ "If not found, say: Information not available." ++ Str.nl
  ++ Str.nl
  ++ "Context:" ++ Str.nl
  ++ context ++ Str.nl
  ++ Str.nl
  ++ "Question: " ++ question ++ Str.nl
  ++ Str.nl
  ++ "Answer:" ++ Str.nl.

Section Ask.

Variable employee_df : list Employee.
Variable holidays : list Holiday.
Variable strptime : string -> option datetime.
Variable similarity_search : string -> nat -> list string.
(** [llm(prompt, max_new_tokens=80, temperature=0.0)] *)
Variable llm : string -> string.

(** [ask(request)]: [question] is [data.get("question")], [None] when the
    body has no such key; the value is the ["answer"] of the returned
    dictionary, [None] when the call ends in an exception, with the pointer
    the call leaves. *)
Definition ask (last_employee : state) (today : datetime)
    (question : option string) : option string * state :=
  match question with
  | None => (None, last_employee)
  | Some question =>
      match retrieve_context employee_df holidays strptime similarity_search
              last_employee today question with
      | (Text result, pointer) =>
          if negb (Str.is_empty result) && negb (Str.startswith "RAG::" result)
          then (Some result, pointer)
          else if negb (Str.is_empty result) && Str.startswith "RAG::" result
          then
            let context := replace "RAG::" "" result in
            let answer := llm (prompt context question) in
            (Some (Str.strip answer), pointer)
          else (Some "Information not available.", pointer)
      | (NoneValue, pointer) => (Some "Information not available.", pointer)
      | (Raised, pointer) => (None, pointer)
      end
  end.

End Ask.

End App.

Module SampleApp.

(** A model that repeats the first passage of the context it is given,
    between blanks. *)
Definition llm (prompt : string) : string :=
  if Str.contains "paid leave" prompt
  then "  Employees get 18 days of paid leave a year. " ++ Str.nl
  else " Information not available. ".

Definition ask : state -> datetime -> option string -> option string * state :=
  App.ask Sample.employees Sample.holidays Sample.strptime
    Sample.similarity_search llm.

End SampleApp.

(** * Notions used to state what the blocks do *)

(** [lit] occurs in [s] as a whole word: somewhere in [s], with a word
    boundary in front of it and a word boundary behind it.  A boundary
    lies between a word character and a non-word character, the two ends
    of [s] counting as non-word. *)
Definition whole_word_in (lit s : string) : Prop :=
  exists a b,
    s = a ++ lit ++ b /\
    Re.boundary (Re.last_isword false a) (Re.head_isword (lit ++ b)) = true /\
    Re.boundary (Re.last_isword false (a ++ lit)) (Re.head_isword b) = true.

(** A word of the question that the ID block passes over: it is not
    purely numeric, or it is a decimal number that is no employee's ID. *)
Definition not_a_known_id (employee_df : list Employee) (word : string) : Prop :=
  Str.isdigit word = false \/
  exists m, Str.to_int word = Some m /\
            forall e, In e employee_df -> Emp_ID e <> Z.of_N m.

(** A number of digits that [int] converts. *)
Definition within_digit_limit (digits : nat) : Prop :=
  (N.of_nat digits <= Str.default_max_str_digits)%N.

(** The number of characters of the class [p] that [s] begins with. *)
Fixpoint run_length (p : ascii -> bool) (s : string) : nat :=
  match s with
  | "" => 0
  | String c s' => if p c then S (run_length p s') else 0
  end.

(** The length of the longest run of consecutive characters of the class
    [p] in [s]. *)
Fixpoint longest_run (p : ascii -> bool) (s : string) : nat :=
  match s with
  | "" => 0
  | String _ s' => Nat.max (run_length p s) (longest_run p s')
  end.

(** * Properties *)

(** ** The model on concrete inputs *)

Module Checks.

Example lower_strip :
  normalize (String "009" "  What IS Ravi's Salary? ") = "what is ravi's salary?".
Proof. reflexivity. Qed.

Example split_on_runs_of_blanks :
  Str.split (" details  of" ++ String "009" "102 ") = ["details"; "of"; "102"].
Proof. reflexivity. Qed.

Example contains_is_substring :
  Str.contains "he" "the" = true /\ Str.contains "her" "there" = true /\
  Str.contains "age" "manager" = true /\ Str.contains "she" "he" = false.
Proof. repeat split. Qed.

Example salary_pattern_leftmost :
  Re.salary_search "salary above 50000 and below 90000" = Some ("above", "50000").
Proof. reflexivity. Qed.

Example salary_pattern_no_blank_needed :
  Re.salary_search "salary >75000" = Some (">", "75000").
Proof. reflexivity. Qed.

Example salary_pattern_wants_digits :
  Re.salary_search "salary greater than fifty" = None /\
  Re.salary_search "salary greater than -1" = None.
Proof. split; reflexivity. Qed.

Example whole_word_only :
  Re.word_search "holi" "when is holi?" = true /\
  Re.word_search "holi" "list of holidays" = false.
Proof. split; reflexivity. Qed.

Example bracket_needs_a_word_after_it :
  Re.word_search "bakrid (eid)" "bakrid (eid) date?" = false /\
  Re.word_search "bakrid (eid)" "bakrid (eid)date?" = true.
Proof. split; reflexivity. Qed.

Example strict_count_pattern :
  Re.fullmatch_how_many_employees "how many employees?" = true /\
  Re.fullmatch_how_many_employees "how many employees??" = false /\
  Re.fullmatch_how_many_employees "how many employees are salaried" = false.
Proof. repeat split. Qed.

Example digits_and_int :
  Str.isdigit "102" = true /\ Str.to_int "102" = Some 102%N /\
  Str.isdigit "10.5" = false /\ Str.isdigit "" = false /\
  Str.isdigit Sample.superscript_two = true /\
  Str.to_int Sample.superscript_two = None.
Proof. repeat split. Qed.

Example sample_questions :
  Sample.route None Sample.today "What is the salary of Ravi Kumar?" =
    (Text "Ravi Kumar's salary is 98000.", Some Sample.ravi) /\
  Sample.route None Sample.today "list salary below 80000" =
    (Text ("Employees matching salary condition:" ++ Str.nl
           ++ "Asha Rao - 52000" ++ Str.nl ++ "Meena Iyer - 75000"), None) /\
  Sample.route None Sample.today "How many holidays?" =
    (Text "There are 6 holidays in 2026.", None) /\
  Sample.route (Some Sample.asha) Sample.today "what is the weather today" =
    (Text "Information not available.", Some Sample.asha) /\
  Sample.route None Sample.today "what is the leave policy" =
    (Text ("RAG::Employees get 18 days of paid leave a year." ++ Str.nl
           ++ "Leave must be applied for three days ahead."), None).
Proof. repeat split; vm_compute; reflexivity. Qed.

End Checks.

(** ** Characters *)

Module CharFacts.

(** A statement about one character is settled on the 256 of them. *)
Ltac each_char c :=
  destruct c as [[] [] [] [] [] [] [] []]; vm_compute; try reflexivity;
  try discriminate; auto.

Lemma lower_lower c : Char.lower (Char.lower c) = Char.lower c.
Proof. each_char c. Qed.

Lemma isspace_lower c : Char.isspace (Char.lower c) = Char.isspace c.
Proof. each_char c. Qed.

Lemma isword_lower c : Char.isword (Char.lower c) = Char.isword c.
Proof. each_char c. Qed.

Lemma decimal_lower c : Char.isdecimal c = true -> Char.lower c = c.
Proof. each_char c. Qed.

Lemma decimal_not_space c : Char.isdecimal c = true -> Char.isspace c = false.
Proof. each_char c. Qed.

Lemma word_not_space c : Char.isword c = true -> Char.isspace c = false.
Proof. each_char c. Qed.

Lemma space_lower c : Char.isspace c = true -> Char.lower c = c.
Proof. each_char c. Qed.

Lemma decimal_uint c d :
  Char.isdecimal c = true -> uint_of_char c (Some d) <> None.
Proof. each_char c. Qed.

Lemma decimal_not_letter c (l : ascii) :
  Char.isdecimal c = true -> Char.isdecimal l = false -> Ascii.eqb l c = false.
Proof.
  intros Hc Hl. destruct (Ascii.eqb_spec l c) as [->|]; congruence.
Qed.

Lemma issuperscript_lower c : Char.issuperscript (Char.lower c) = Char.issuperscript c.
Proof. each_char c. Qed.

Lemma isdecimal_lower c : Char.isdecimal (Char.lower c) = Char.isdecimal c.
Proof. each_char c. Qed.

Lemma digit_not_superscript c :
  Char.isdigit c = true -> Char.issuperscript c = false -> Char.isdecimal c = true.
Proof. each_char c. Qed.

End CharFacts.

(** ** Strings *)

Module StrFacts.

Lemma app_assoc (a b c : string) : (a ++ b) ++ c = a ++ b ++ c.
Proof. induction a as [|x a IH]; simpl; [reflexivity | now rewrite IH]. Qed.

Lemma strip_prefix_app p s : Str.strip_prefix p (p ++ s) = Some s.
Proof.
  induction p as [|a p IH]; simpl; [reflexivity|].
  now rewrite Ascii.eqb_refl.
Qed.

Lemma strip_prefix_sound p : forall s r,
  Str.strip_prefix p s = Some r -> s = p ++ r.
Proof.
  induction p as [|a p IH]; simpl; intros s r H.
  - now inversion H.
  - destruct s as [|b s]; [discriminate|].
    destruct (Ascii.eqb_spec a b) as [->|]; [|discriminate].
    now rewrite (IH _ _ H).
Qed.

Lemma startswith_app p s : Str.startswith p (p ++ s) = true.
Proof. unfold Str.startswith. now rewrite strip_prefix_app. Qed.

Lemma contains_here p s : Str.startswith p s = true -> Str.contains p s = true.
Proof. intros H. destruct s; simpl; rewrite H; reflexivity. Qed.

Lemma contains_later p c s :
  Str.contains p s = true -> Str.contains p (String c s) = true.
Proof. intros H. simpl. rewrite H. apply orb_true_r. Qed.

(** [p in s] holds when [s] has [p] somewhere inside. *)
Lemma contains_mid p b : forall a, Str.contains p (a ++ p ++ b) = true.
Proof.
  induction a as [|x a IH]; simpl append.
  - apply contains_here, startswith_app.
  - now apply contains_later.
Qed.

(** And only then. *)
Lemma contains_sound p : forall s,
  Str.contains p s = true -> exists a b, s = a ++ p ++ b.
Proof.
  induction s as [|x s IH]; simpl; intros H.
  - rewrite orb_false_r in H. unfold Str.startswith in H.
    destruct (Str.strip_prefix p "") as [r|] eqn:E; [|discriminate].
    exists "", r. simpl. now apply strip_prefix_sound.
  - apply orb_true_iff in H. destruct H as [H|H].
    + unfold Str.startswith in H.
      destruct (Str.strip_prefix p (String x s)) as [r|] eqn:E; [|discriminate].
      exists "", r. simpl. now apply strip_prefix_sound.
    + destruct (IH H) as (a & b & ->). now exists (String x a), b.
Qed.

Lemma contains_iff p s :
  Str.contains p s = true <-> exists a b, s = a ++ p ++ b.
Proof.
  split; [apply contains_sound|]. intros (a & b & ->). apply contains_mid.
Qed.

Lemma all_app p a b : Str.all p (a ++ b) = Str.all p a && Str.all p b.
Proof.
  induction a as [|x a IH]; simpl; [reflexivity|].
  now rewrite IH, andb_assoc.
Qed.

Lemma all_impl (p r : ascii -> bool) s :
  (forall c, p c = true -> r c = true) -> Str.all p s = true -> Str.all r s = true.
Proof.
  intros Hpr. induction s as [|x s IH]; simpl; [reflexivity|].
  intros H. apply andb_true_iff in H. destruct H as [Hx Hs].
  now rewrite (Hpr _ Hx), IH.
Qed.

Lemma lower_app a b : Str.lower (a ++ b) = Str.lower a ++ Str.lower b.
Proof. induction a as [|x a IH]; simpl; [reflexivity | now rewrite IH]. Qed.

Lemma lower_fixed (p : ascii -> bool) s :
  (forall c, p c = true -> Char.lower c = c) ->
  Str.all p s = true -> Str.lower s = s.
Proof.
  intros Hp. induction s as [|x s IH]; simpl; [reflexivity|].
  intros H. apply andb_true_iff in H. destruct H as [Hx Hs].
  now rewrite (Hp _ Hx), IH.
Qed.

Lemma lower_blank s : blank s -> Str.lower s = s.
Proof. apply lower_fixed, CharFacts.space_lower. Qed.

Lemma all_lower (p : ascii -> bool) s :
  (forall c, p (Char.lower c) = p c) -> Str.all p (Str.lower s) = Str.all p s.
Proof.
  intros Hp. induction s as [|x s IH]; simpl; [reflexivity|].
  now rewrite Hp, IH.
Qed.

(** *** Stripping *)

Lemma lstrip_blank_app a s : blank a -> Str.lstrip (a ++ s) = Str.lstrip s.
Proof.
  unfold blank. induction a as [|x a IH]; simpl; [reflexivity|].
  intros H. apply andb_true_iff in H. destruct H as [Hx Ha].
  rewrite Hx. auto.
Qed.

Lemma lstrip_blank s : blank s -> Str.lstrip s = "".
Proof.
  unfold blank. induction s as [|x s IH]; simpl; [reflexivity|].
  intros H. apply andb_true_iff in H. destruct H as [Hx Hs].
  rewrite Hx. auto.
Qed.

Lemma rstrip_blank s : blank s -> Str.rstrip s = "".
Proof.
  unfold blank. induction s as [|x s IH]; simpl; [reflexivity|].
  intros H. apply andb_true_iff in H. destruct H as [Hx Hs].
  now rewrite IH, Hx.
Qed.

Lemma rstrip_app_blank b : blank b -> forall s, Str.rstrip (s ++ b) = Str.rstrip s.
Proof.
  intros Hb. induction s as [|x s IH]; simpl.
  - now apply rstrip_blank.
  - now rewrite IH.
Qed.

Lemma strip_app_blank b s : blank b -> Str.strip (s ++ b) = Str.strip s.
Proof.
  intros Hb. unfold Str.strip. induction s as [|x s IH]; simpl.
  - now rewrite lstrip_blank.
  - destruct (Char.isspace x); [assumption|].
    change (String x (s ++ b)) with (String x s ++ b).
    now apply rstrip_app_blank.
Qed.

(** Blanks around a text do not survive [strip]. *)
Lemma strip_between_blanks a s b :
  blank a -> blank b -> Str.strip (a ++ s ++ b) = Str.strip s.
Proof.
  intros Ha Hb. unfold Str.strip at 1. rewrite lstrip_blank_app by assumption.
  now apply strip_app_blank.
Qed.

Lemma rstrip_nonblank_end p : forall s,
  s <> "" -> Str.all (fun c => negb (Char.isspace c)) s = true ->
  Str.rstrip (p ++ s) = p ++ s.
Proof.
  assert (Hs : forall s, Str.all (fun c => negb (Char.isspace c)) s = true ->
                         Str.rstrip s = s).
  { induction s as [|x s IH]; simpl; [reflexivity|].
    intros H. apply andb_true_iff in H. destruct H as [Hx Hall].
    apply negb_true_iff in Hx. now rewrite Hx, IH. }
  intros s Hne Hall. induction p as [|x p IH]; simpl.
  - now apply Hs.
  - rewrite IH. destruct (p ++ s) eqn:E.
    + destruct p; simpl in E; [contradiction | discriminate].
    + simpl. now rewrite andb_false_r.
Qed.

(** A text without blanks that occurs in a string still occurs in it
    after [strip]. *)
Lemma lstrip_keeps c p after : forall before,
  Char.isspace c = false ->
  exists before',
    Str.lstrip (before ++ String c p ++ after) = before' ++ String c p ++ after.
Proof.
  intros before Hc. induction before as [|x before IH]; simpl.
  - exists "". simpl. now rewrite Hc.
  - destruct (Char.isspace x); [exact IH|]. now exists (String x before).
Qed.

Lemma rstrip_nonblank_head : forall p after,
  Str.all (fun c => negb (Char.isspace c)) p = true ->
  Str.rstrip (p ++ after) = p ++ Str.rstrip after.
Proof.
  induction p as [|x p IH]; simpl; intros after H; [reflexivity|].
  apply andb_true_iff in H. destruct H as [Hx Hp].
  apply negb_true_iff in Hx. now rewrite Hx, IH.
Qed.

Lemma rstrip_keeps c p after : forall before,
  Str.all (fun c => negb (Char.isspace c)) (String c p) = true ->
  Str.rstrip (before ++ String c p ++ after) =
  before ++ String c p ++ Str.rstrip after.
Proof.
  intros before H. induction before as [|x before IH].
  - exact (rstrip_nonblank_head (String c p) after H).
  - simpl append. simpl Str.rstrip. simpl append in IH. rewrite IH.
    destruct before; simpl; now rewrite andb_false_r.
Qed.

Lemma contains_strip p s :
  Str.all (fun c => negb (Char.isspace c)) p = true ->
  Str.contains p s = true -> Str.contains p (Str.strip s) = true.
Proof.
  intros Hp H. destruct p as [|c p].
  - apply contains_here. reflexivity.
  - apply contains_sound in H. destruct H as (before & after & ->).
    assert (Hc : Char.isspace c = false).
    { simpl in Hp. apply andb_true_iff in Hp. destruct Hp as [Hc _].
      now apply negb_true_iff in Hc. }
    unfold Str.strip.
    destruct (lstrip_keeps c p after before Hc) as (before' & ->).
    rewrite rstrip_keeps by assumption. apply contains_mid.
Qed.

(** *** Texts without digits in front of digits *)

Lemma startswith_before_decimals ds :
  Str.all Char.isdecimal ds = true ->
  forall p a, Str.all (fun c => negb (Char.isdecimal c)) p = true ->
  Str.startswith p (a ++ ds) = Str.startswith p a.
Proof.
  intros Hds. unfold Str.startswith.
  induction p as [|x p IH]; intros a Hp; simpl; [reflexivity|].
  apply andb_true_iff in Hp. destruct Hp as [Hx Hp].
  apply negb_true_iff in Hx.
  destruct a as [|y a]; simpl.
  - destruct ds as [|d ds']; [reflexivity|].
    simpl in Hds. apply andb_true_iff in Hds. destruct Hds as [Hd _].
    now rewrite (CharFacts.decimal_not_letter d x Hd Hx).
  - destruct (Ascii.eqb x y); [now apply IH | reflexivity].
Qed.

Lemma contains_decimals p : forall ds,
  Str.all Char.isdecimal ds = true ->
  Str.all (fun c => negb (Char.isdecimal c)) p = true ->
  Str.contains p ds = Str.startswith p "".
Proof.
  induction ds as [|d ds IH]; intros Hds Hp.
  - simpl. apply orb_false_r.
  - cbn [Str.contains].
    change (Str.startswith p (String d ds))
      with (Str.startswith p ("" ++ String d ds)).
    rewrite (startswith_before_decimals (String d ds) Hds p "" Hp).
    simpl in Hds. apply andb_true_iff in Hds. destruct Hds as [_ Hds].
    rewrite IH by assumption. apply orb_diag.
Qed.

(** A text without digits occurs in [a ++ ds], where [ds] is all digits,
    exactly when it occurs in [a]. *)
Lemma contains_before_decimals p ds :
  Str.all Char.isdecimal ds = true ->
  Str.all (fun c => negb (Char.isdecimal c)) p = true ->
  forall a, Str.contains p (a ++ ds) = Str.contains p a.
Proof.
  intros Hds Hp. induction a as [|y a IH].
  - simpl append. rewrite contains_decimals by assumption.
    simpl. now rewrite orb_false_r.
  - simpl append. cbn [Str.contains]. rewrite IH.
    change (String y (a ++ ds)) with (String y a ++ ds).
    now rewrite startswith_before_decimals.
Qed.

(** *** What the parts of a string inherit from it *)

Lemma all_lstrip p : forall s, Str.all p s = true -> Str.all p (Str.lstrip s) = true.
Proof.
  induction s as [|x s IH]; simpl; [reflexivity|].
  intros H. destruct (Char.isspace x); [|exact H].
  apply andb_true_iff in H. now apply IH.
Qed.

Lemma all_rstrip p : forall s, Str.all p s = true -> Str.all p (Str.rstrip s) = true.
Proof.
  induction s as [|x s IH]; simpl; [reflexivity|].
  intros H. apply andb_true_iff in H. destruct H as [Hx Hs].
  destruct (Char.isspace x && Str.is_empty (Str.rstrip s)); [reflexivity|].
  simpl. now rewrite Hx, IH.
Qed.

Lemma all_strip p s : Str.all p s = true -> Str.all p (Str.strip s) = true.
Proof. intros H. now apply all_rstrip, all_lstrip. Qed.

Lemma all_split_from p : forall s cur,
  Str.all p cur = true -> Str.all p s = true ->
  Forall (fun w => Str.all p w = true) (Str.split_from cur s).
Proof.
  induction s as [|x s IH]; simpl; intros cur Hcur H.
  - destruct (Str.is_empty cur); auto.
  - apply andb_true_iff in H. destruct H as [Hx Hs].
    destruct (Char.isspace x).
    + destruct (Str.is_empty cur); [|constructor; [assumption|]];
        now apply IH.
    + apply IH; [|assumption]. rewrite all_app, Hcur. simpl. now rewrite Hx.
Qed.

Lemma all_split p s :
  Str.all p s = true -> Forall (fun w => Str.all p w = true) (Str.split s).
Proof. now apply all_split_from. Qed.

(** *** The parts of a string lie inside it *)

Lemma lstrip_suffix : forall s, exists a, s = a ++ Str.lstrip s.
Proof.
  induction s as [|x s IH]; simpl; [now exists ""|].
  destruct (Char.isspace x); [|now exists ""].
  destruct IH as (a & E). exists (String x a). simpl. now rewrite <- E.
Qed.

Lemma rstrip_prefix : forall s, exists b, s = Str.rstrip s ++ b.
Proof.
  induction s as [|x s IH]; simpl; [now exists ""|].
  destruct IH as (b & E).
  destruct (Char.isspace x && Str.is_empty (Str.rstrip s)).
  - now exists (String x s).
  - exists b. simpl. now rewrite <- E.
Qed.

Lemma strip_inside s : exists a b, s = a ++ Str.strip s ++ b.
Proof.
  unfold Str.strip.
  destruct (lstrip_suffix s) as (a & Ea).
  destruct (rstrip_prefix (Str.lstrip s)) as (b & Eb).
  exists a, b. now rewrite <- Eb.
Qed.

Lemma app_empty : forall s : string, s ++ "" = s.
Proof. induction s as [|x s IH]; simpl; [reflexivity | now rewrite IH]. Qed.

Lemma split_from_inside : forall s cur w,
  In w (Str.split_from cur s) -> exists a b, cur ++ s = a ++ w ++ b.
Proof.
  induction s as [|x s IH]; simpl; intros cur w H.
  - destruct (Str.is_empty cur); [contradiction|].
    destruct H as [<-|[]]. exists "", "". simpl. now rewrite !app_empty.
  - destruct (Char.isspace x).
    + assert (Hrest : In w (Str.split_from "" s) ->
                      exists a b, cur ++ String x s = a ++ w ++ b).
      { intros Hin. destruct (IH "" w Hin) as (a & b & E). simpl in E.
        exists (cur ++ String x a), b.
        rewrite app_assoc. simpl. now rewrite <- E. }
      destruct (Str.is_empty cur); [now apply Hrest|].
      destruct H as [<-|H]; [|now apply Hrest].
      now exists "", (String x s).
    + destruct (IH _ w H) as (a & b & E). exists a, b.
      rewrite <- E, app_assoc. reflexivity.
Qed.

(** Every word of [s.split()] is a stretch of [s]. *)
Lemma split_inside s w :
  In w (Str.split s) -> exists a b, s = a ++ w ++ b.
Proof. intros H. exact (split_from_inside s "" w H). Qed.

Lemma span_parts p : forall s,
  s = fst (Str.span p s) ++ snd (Str.span p s).
Proof.
  induction s as [|x s IH]; simpl; [reflexivity|].
  destruct (p x); [|reflexivity].
  destruct (Str.span p s) as [a b]. simpl in *. now rewrite <- IH.
Qed.

End StrFacts.

(** ** Integers in text *)

Module IntFacts.

Lemma span_fst_all p : forall s, Str.all p (fst (Str.span p s)) = true.
Proof.
  induction s as [|x s IH]; simpl; [reflexivity|].
  destruct (p x) eqn:Hx; [|reflexivity].
  destruct (Str.span p s) as [a b]. simpl in *. now rewrite Hx, IH.
Qed.

Lemma span_all p : forall s, Str.all p s = true -> Str.span p s = (s, "").
Proof.
  induction s as [|x s IH]; simpl; [reflexivity|].
  intros H. apply andb_true_iff in H. destruct H as [Hx Hs].
  now rewrite Hx, (IH Hs).
Qed.

Lemma span_none p c s : p c = false -> Str.span p (String c s) = ("", String c s).
Proof. intros H. simpl. now rewrite H. Qed.

Lemma uint_of_decimals : forall s,
  Str.all Char.isdecimal s = true -> NilEmpty.uint_of_string s <> None.
Proof.
  induction s as [|x s IH]; simpl; [discriminate|].
  intros H. apply andb_true_iff in H. destruct H as [Hx Hs].
  destruct (NilEmpty.uint_of_string s) as [d|]; [|now elim IH].
  now apply CharFacts.decimal_uint.
Qed.

Lemma to_int_within s :
  within_digit_limit (String.length s) ->
  Str.to_int s = option_map N.of_uint (NilZero.uint_of_string s).
Proof.
  unfold within_digit_limit, Str.to_int. intros H.
  apply N.ltb_ge in H. now rewrite H.
Qed.

(** [int] gives up on a string of more digits than the limit. *)
Lemma to_int_beyond s :
  ~ within_digit_limit (String.length s) -> Str.to_int s = None.
Proof.
  unfold within_digit_limit, Str.to_int. intros H.
  apply N.nle_gt, N.ltb_lt in H. now rewrite H.
Qed.

(** [int] accepts every non-empty string of decimal digits that is not
    longer than the limit. *)
Lemma to_int_decimals s :
  s <> "" -> Str.all Char.isdecimal s = true ->
  within_digit_limit (String.length s) -> Str.to_int s <> None.
Proof.
  intros Hne Hall Hfit. rewrite (to_int_within s Hfit).
  unfold NilZero.uint_of_string.
  destruct s as [|x s]; [contradiction|].
  pose proof (uint_of_decimals _ Hall) as H.
  destruct (NilEmpty.uint_of_string (String x s)); [discriminate | contradiction].
Qed.

Lemma digits_without_superscripts : forall w,
  Str.all Char.isdigit w = true ->
  Str.all (fun c => negb (Char.issuperscript c)) w = true ->
  Str.all Char.isdecimal w = true.
Proof.
  induction w as [|x w IH]; simpl; [reflexivity|].
  intros Hd Hs.
  apply andb_true_iff in Hd. destruct Hd as [Hxd Hd].
  apply andb_true_iff in Hs. destruct Hs as [Hxs Hs].
  apply negb_true_iff in Hxs.
  rewrite (CharFacts.digit_not_superscript x Hxd Hxs). simpl. now apply IH.
Qed.

Lemma decimals_of_uint : forall d,
  Str.all Char.isdecimal (NilEmpty.string_of_uint d) = true.
Proof. induction d; simpl; auto. Qed.

Lemma of_N_decimals n : Str.all Char.isdecimal (Str.of_N n) = true.
Proof.
  unfold Str.of_N, NilZero.string_of_uint.
  destruct (N.to_uint n) eqn:E; try reflexivity;
    rewrite <- E; apply decimals_of_uint.
Qed.

Lemma of_N_nonempty n : Str.of_N n <> "".
Proof.
  unfold Str.of_N, NilZero.string_of_uint.
  destruct (N.to_uint n); simpl; discriminate.
Qed.

(** [int(str(n)) == n], for a number of no more digits than the limit. *)
Lemma to_int_of_N n :
  within_digit_limit (String.length (Str.of_N n)) ->
  Str.to_int (Str.of_N n) = Some n.
Proof.
  intros Hfit. rewrite (to_int_within _ Hfit). unfold Str.of_N.
  rewrite NilZero.usu.
  - simpl. now rewrite DecimalN.Unsigned.of_to.
  - destruct n as [|p]; [discriminate|].
    apply DecimalPos.Unsigned.to_uint_nonnil.
Qed.

End IntFacts.

(** ** Instants *)

Module DateTimeFacts.

Lemma leb_spec a b :
  (DateTime.leb a b = true /\ DateTime.le a b) \/
  (DateTime.leb a b = false /\ DateTime.lt b a).
Proof.
  unfold DateTime.leb, DateTime.le, DateTime.lt.
  destruct (Z.ltb_spec (DateTime.day_number a) (DateTime.day_number b));
    destruct (Z.eqb_spec (DateTime.day_number a) (DateTime.day_number b));
    destruct (Z.leb_spec (DateTime.time_of_day a) (DateTime.time_of_day b));
    simpl; (left; split; [reflexivity | lia]) || (right; split; [reflexivity | lia]).
Qed.

Lemma ltb_spec a b :
  (DateTime.ltb a b = true /\ DateTime.lt a b) \/
  (DateTime.ltb a b = false /\ DateTime.le b a).
Proof.
  unfold DateTime.ltb, DateTime.le, DateTime.lt.
  destruct (Z.ltb_spec (DateTime.day_number a) (DateTime.day_number b));
    destruct (Z.eqb_spec (DateTime.day_number a) (DateTime.day_number b));
    destruct (Z.ltb_spec (DateTime.time_of_day a) (DateTime.time_of_day b));
    simpl; (left; split; [reflexivity | lia]) || (right; split; [reflexivity | lia]).
Qed.

(** Order facts by arithmetic on the two components. *)
Ltac order := unfold DateTime.le, DateTime.lt in *; lia.

(** Once the day has begun, its midnight is before the current instant:
    the test [h_date >= today] of the router fails for a date of the
    current day. *)
Lemma midnight_of_the_day_is_past now :
  (0 < DateTime.time_of_day now)%Z ->
  DateTime.leb now (DateTime.midnight (DateTime.day_number now)) = false.
Proof.
  intros H.
  destruct (leb_spec now (DateTime.midnight (DateTime.day_number now)))
    as [[_ Hle] | [E _]]; [|exact E].
  unfold DateTime.le, DateTime.midnight in Hle. simpl in Hle. lia.
Qed.

End DateTimeFacts.

(** ** The salary pattern *)

Module ReFacts.

Lemma amount_after_decimals s ds :
  Re.amount_after s = Some ds ->
  ds <> "" /\ Str.all Char.isdecimal ds = true.
Proof.
  unfold Re.amount_after.
  pose proof (IntFacts.span_fst_all Char.isdecimal
                (snd (Str.span Char.isspace s))) as H.
  destruct (Str.span Char.isdecimal (snd (Str.span Char.isspace s))) as [a b].
  simpl in H. destruct a; simpl; [discriminate|].
  intros [= <-]. split; [discriminate | assumption].
Qed.

Lemma salary_at_decimals alts s c ds :
  Re.salary_at alts s = Some (c, ds) ->
  In c alts /\ ds <> "" /\ Str.all Char.isdecimal ds = true.
Proof.
  induction alts as [|a alts IH]; simpl; [discriminate|].
  destruct (Str.strip_prefix a s) as [rest|].
  - destruct (Re.amount_after rest) as [ds'|] eqn:E.
    + intros [= <- <-]. split; [now left|]. now apply amount_after_decimals in E.
    + intros H. destruct (IH H) as [? ?]. auto.
  - intros H. destruct (IH H) as [? ?]. auto.
Qed.

(** Group 1 of a match is one of the alternatives and group 2 a non-empty
    string of decimal digits. *)
Lemma salary_search_decimals : forall s c ds,
  Re.salary_search s = Some (c, ds) ->
  In c Re.conditions /\ ds <> "" /\ Str.all Char.isdecimal ds = true.
Proof.
  induction s as [|x s IH]; intros c ds; cbn [Re.salary_search].
  - destruct (Re.salary_at Re.conditions "") as [[c' ds']|] eqn:E;
      [|discriminate].
    intros [= <- <-]. now apply salary_at_decimals in E.
  - destruct (Re.salary_at Re.conditions (String x s)) as [[c' ds']|] eqn:E;
      [|apply IH].
    intros [= <- <-]. now apply salary_at_decimals in E.
Qed.

Lemma amount_after_inside s ds :
  Re.amount_after s = Some ds -> exists a b, s = a ++ ds ++ b.
Proof.
  unfold Re.amount_after. intros H.
  pose proof (StrFacts.span_parts Char.isspace s) as E1.
  pose proof (StrFacts.span_parts Char.isdecimal
                (snd (Str.span Char.isspace s))) as E2.
  destruct (Str.span Char.isdecimal (snd (Str.span Char.isspace s)))
    as [ds' rest].
  destruct (Str.is_empty ds'); [discriminate|].
  injection H as <-. simpl in E2.
  exists (fst (Str.span Char.isspace s)), rest. now rewrite <- E2.
Qed.

Lemma salary_at_inside alts s c ds :
  Re.salary_at alts s = Some (c, ds) -> exists a b, s = a ++ ds ++ b.
Proof.
  induction alts as [|alt alts IH]; simpl; [discriminate|].
  destruct (Str.strip_prefix alt s) as [rest|] eqn:Ep; [|exact IH].
  destruct (Re.amount_after rest) as [ds'|] eqn:E; [|exact IH].
  intros [= <- <-].
  apply StrFacts.strip_prefix_sound in Ep.
  apply amount_after_inside in E. destruct E as (a & b & ->).
  exists (alt ++ a), b. subst s. now rewrite StrFacts.app_assoc.
Qed.

(** Group 2 of a match is a stretch of the string searched. *)
Lemma salary_search_inside : forall s c ds,
  Re.salary_search s = Some (c, ds) -> exists a b, s = a ++ ds ++ b.
Proof.
  induction s as [|x s IH]; intros c ds; cbn [Re.salary_search].
  - destruct (Re.salary_at Re.conditions "") as [[c' ds']|] eqn:E;
      [|discriminate].
    intros [= <- <-]. now apply salary_at_inside in E.
  - destruct (Re.salary_at Re.conditions (String x s)) as [[c' ds']|] eqn:E.
    + intros [= <- <-]. now apply salary_at_inside in E.
    + intros H. destruct (IH c ds H) as (a & b & ->).
      now exists (String x a), b.
Qed.

(** The strict pattern of the employee count has exactly two matches. *)
Lemma fullmatch_iff s :
  Re.fullmatch_how_many_employees s = true <->
  s = "how many employees" \/ s = "how many employees?".
Proof.
  unfold Re.fullmatch_how_many_employees. split.
  - destruct (Str.strip_prefix "how many employees" s) as [rest|] eqn:E;
      [|discriminate].
    apply StrFacts.strip_prefix_sound in E. subst s. intros H.
    apply orb_true_iff in H. destruct H as [H|H];
      apply String.eqb_eq in H; subst rest; auto.
  - intros [-> | ->]; reflexivity.
Qed.

(** *** Whole words *)

Lemma head_isword_lower s : Re.head_isword (Str.lower s) = Re.head_isword s.
Proof. destruct s; simpl; [reflexivity | apply CharFacts.isword_lower]. Qed.

Lemma last_isword_lower : forall s b,
  Re.last_isword b (Str.lower s) = Re.last_isword b s.
Proof.
  induction s as [|x s IH]; simpl; intros b; [reflexivity|].
  now rewrite CharFacts.isword_lower.
Qed.

Lemma head_isword_app s r :
  Re.head_isword s = true -> Re.head_isword (s ++ r) = true.
Proof. destruct s; simpl; [discriminate | trivial]. Qed.

Lemma word_search_here lit before s :
  Re.word_at lit before s = true -> Re.word_search_from lit before s = true.
Proof. intros H. destruct s; simpl; now rewrite H. Qed.

(** A literal that begins and ends with a word character is found as a
    whole word at the head of a string where a non-word character follows
    it. *)
Lemma word_search_head lit rest :
  Re.head_isword lit = true -> Re.last_isword false lit = true ->
  Re.head_isword rest = false ->
  Re.word_search lit (lit ++ rest) = true.
Proof.
  intros Hh Hl Hr. apply word_search_here. unfold Re.word_at.
  rewrite head_isword_app by assumption.
  now rewrite StrFacts.strip_prefix_app, Hl, Hr.
Qed.

End ReFacts.

(** ** Runs of digits *)

Module RunFacts.

Lemma within_le n m :
  n <= m -> within_digit_limit m -> within_digit_limit n.
Proof. unfold within_digit_limit. lia. Qed.

Lemma run_length_le p s : run_length p s <= longest_run p s.
Proof. destruct s as [|x s]; [reflexivity|]. cbn [longest_run]. apply Nat.le_max_l. Qed.

Lemma run_after p : forall a s, longest_run p s <= longest_run p (a ++ s).
Proof.
  induction a as [|x a IH]; intros s; [reflexivity|].
  simpl append. cbn [longest_run].
  etransitivity; [apply IH | apply Nat.le_max_r].
Qed.

Lemma run_length_prefix p : forall w b,
  Str.all p w = true -> String.length w <= run_length p (w ++ b).
Proof.
  induction w as [|x w IH]; simpl; intros b H; [lia|].
  apply andb_true_iff in H. destruct H as [Hx Hw].
  rewrite Hx. specialize (IH b Hw). lia.
Qed.

(** A stretch of characters of a class is no longer than the longest run
    of the class. *)
Lemma run_inside p a w b :
  Str.all p w = true -> String.length w <= longest_run p (a ++ w ++ b).
Proof.
  intros H.
  etransitivity; [apply (run_length_prefix p w b H)|].
  etransitivity; [apply run_length_le | apply run_after].
Qed.

Lemma run_length_lower : forall s,
  run_length Char.isdecimal (Str.lower s) = run_length Char.isdecimal s.
Proof.
  induction s as [|x s IH]; simpl; [reflexivity|].
  now rewrite CharFacts.isdecimal_lower, IH.
Qed.

Lemma longest_run_lower : forall s,
  longest_run Char.isdecimal (Str.lower s) = longest_run Char.isdecimal s.
Proof.
  induction s as [|x s IH]; [reflexivity|].
  change (Str.lower (String x s)) with (String (Char.lower x) (Str.lower s)).
  cbn [longest_run]. rewrite IH.
  change (String (Char.lower x) (Str.lower s)) with (Str.lower (String x s)).
  now rewrite run_length_lower.
Qed.

(** A stretch of decimal digits of the normalized question is no longer
    than the longest run of digits of the question. *)
Lemma decimals_of_normalized question a w b :
  normalize question = a ++ w ++ b ->
  Str.all Char.isdecimal w = true ->
  String.length w <= longest_run Char.isdecimal question.
Proof.
  intros E Hw. unfold normalize in E.
  destruct (StrFacts.strip_inside (Str.lower question)) as (x & y & Es).
  rewrite E in Es. rewrite <- longest_run_lower, Es.
  replace (x ++ (a ++ w ++ b) ++ y) with ((x ++ a) ++ w ++ (b ++ y))
    by now rewrite !StrFacts.app_assoc.
  now apply run_inside.
Qed.

End RunFacts.

(** ** The router *)

Section RouterFacts.

Variable employee_df : list Employee.
Variable holidays : list Holiday.
Variable strptime : string -> option datetime.
Variable similarity_search : string -> nat -> list string.

Local Abbreviation route :=
  (retrieve_context employee_df holidays strptime similarity_search).
Local Abbreviation resolved := (resolution employee_df holidays strptime).
Local Abbreviation reaches_named := (reaches_specific_holiday employee_df holidays strptime).
Local Abbreviation reaches_ids := (reaches_id employee_df holidays strptime).
Local Abbreviation reaches_pron := (reaches_pronoun employee_df holidays strptime).
Local Abbreviation reaches_pol := (reaches_policy employee_df holidays strptime).

(** The salary block does not raise when the question has no run of
    digits longer than [int] converts: [int] is given decimal digits. *)
Lemma salary_filter_no_raise question :
  within_digit_limit (longest_run Char.isdecimal question) ->
  salary_filter employee_df (normalize question) <> Raise.
Proof.
  intros Hfit. unfold salary_filter.
  destruct (Re.salary_search (normalize question)) as [[c ds]|] eqn:E;
    [|discriminate].
  destruct (Str.contains "salary" (normalize question)); [|discriminate].
  pose proof (ReFacts.salary_search_inside _ _ _ E) as (a & b & Ein).
  apply ReFacts.salary_search_decimals in E. destruct E as (_ & Hne & Hall).
  assert (Hlen : within_digit_limit (String.length ds)).
  { apply (RunFacts.within_le _ _
             (RunFacts.decimals_of_normalized question a ds b Ein Hall) Hfit). }
  pose proof (IntFacts.to_int_decimals ds Hne Hall Hlen).
  destruct (Str.to_int ds); [discriminate | contradiction].
Qed.

(** *** Entering the router at a later block *)

Lemma route_from_specific_holiday last_employee today question :
  reaches_named today (normalize question) = true ->
  route last_employee today question =
  from_specific_holiday employee_df holidays similarity_search
    last_employee question (normalize question).
Proof.
  unfold reaches_specific_holiday, retrieve_context, from_count_holidays,
    from_list_holidays, from_upcoming.
  intros H. repeat (apply andb_true_iff in H; destruct H as [H ?]).
  destruct (salary_filter _ _); try discriminate.
  destruct (count_holidays _ _); try discriminate.
  destruct (list_holidays _ _); try discriminate.
  destruct (upcoming_holiday _ _ _ _); try discriminate.
  reflexivity.
Qed.

Lemma route_from_id last_employee today question :
  reaches_ids today (normalize question) = true ->
  route last_employee today question =
  from_id employee_df similarity_search last_employee question (normalize question).
Proof.
  unfold reaches_id. intros H.
  apply andb_true_iff in H. destruct H as [H Hc].
  apply andb_true_iff in H. destruct H as [H Hh].
  rewrite route_from_specific_holiday by assumption.
  unfold from_specific_holiday, from_employee_count.
  destruct (specific_holiday _ _); try discriminate.
  destruct (employee_count _ _); try discriminate.
  reflexivity.
Qed.

Lemma route_from_pronoun last_employee today question :
  reaches_pron today (normalize question) = true ->
  route last_employee today question =
  from_pronoun similarity_search last_employee question (normalize question).
Proof.
  unfold reaches_pronoun. intros H.
  apply andb_true_iff in H. destruct H as [H Hn].
  apply andb_true_iff in H. destruct H as [H Hi].
  rewrite route_from_id by assumption.
  unfold from_id, from_name.
  destruct (id_match _ _); try discriminate.
  destruct (name_match _ _); try discriminate.
  reflexivity.
Qed.

Lemma route_from_policy last_employee today question :
  reaches_pol last_employee today (normalize question) = true ->
  route last_employee today question =
  from_policy similarity_search last_employee question (normalize question).
Proof.
  unfold reaches_policy, pronoun_fires. intros H.
  apply andb_true_iff in H. destruct H as [H Hp].
  rewrite route_from_pronoun by assumption.
  unfold from_pronoun. destruct last_employee; [|reflexivity].
  change (negb (Str.contains_any pronouns (normalize question)) = true) in Hp.
  apply negb_true_iff in Hp. now rewrite Hp.
Qed.

(** *** The pointer *)

(** Below the ID block the pointer is only ever written by the name block. *)
Lemma from_pronoun_keeps last_employee question q :
  snd (from_pronoun similarity_search last_employee question q) = last_employee.
Proof.
  unfold from_pronoun, from_policy.
  destruct last_employee; repeat (destruct (Str.contains_any _ _)); reflexivity.
Qed.

Lemma from_id_pointer last_employee question q :
  snd (from_id employee_df similarity_search last_employee question q) =
  match id_match employee_df q with
  | Return emp => Some emp
  | Fallthrough =>
      match name_match employee_df q with
      | Some emp => Some emp
      | None => last_employee
      end
  | Raise => last_employee
  end.
Proof.
  unfold from_id, from_name.
  destruct (id_match _ _); try reflexivity.
  destruct (name_match _ _); [reflexivity|].
  apply from_pronoun_keeps.
Qed.

(** The pointer after a call is the employee the call resolved, or else the
    pointer before it. *)
Lemma route_pointer last_employee today question :
  snd (route last_employee today question) =
  match resolved today question with
  | Some emp => Some emp
  | None => last_employee
  end.
Proof.
  unfold resolution.
  destruct (reaches_ids today (normalize question)) eqn:R.
  - rewrite route_from_id by assumption. rewrite from_id_pointer.
    destruct (id_match _ _); try reflexivity.
  - unfold reaches_id, reaches_specific_holiday in R.
    unfold retrieve_context, from_count_holidays, from_list_holidays,
      from_upcoming, from_specific_holiday, from_employee_count.
    destruct (salary_filter _ _); try reflexivity.
    destruct (count_holidays _ _); try reflexivity.
    destruct (list_holidays _ _); try reflexivity.
    destruct (upcoming_holiday _ _ _ _); try reflexivity.
    destruct (specific_holiday _ _); try reflexivity.
    destruct (employee_count _ _); try reflexivity.
    discriminate.
Qed.

Lemma id_scan_hit emp : forall words,
  id_scan employee_df words = Return emp ->
  exists word n, In word words /\ Str.isdigit word = true /\
    Str.to_int word = Some n /\ by_id employee_df (Z.of_N n) = Some emp.
Proof.
  induction words as [|w ws IH]; simpl; [discriminate|].
  destruct (Str.isdigit w) eqn:Hd.
  - destruct (Str.to_int w) as [n|] eqn:Hn; [|discriminate].
    destruct (by_id employee_df (Z.of_N n)) as [e|] eqn:He.
    + intros [= ->]. exists w, n. auto.
    + intros H. destruct (IH H) as (w' & n' & ? & ?). exists w', n'. auto.
  - intros H. destruct (IH H) as (w' & n' & ? & ?). exists w', n'. auto.
Qed.

(** What it is to be resolved: the employee is a row of the table, found
    either under the number of a purely numeric word of the question or by
    its lower-cased name occurring in the question. *)
Lemma resolution_sound today question emp :
  resolved today question = Some emp ->
  In emp employee_df /\
  ((exists word n, In word (Str.split (normalize question)) /\
      Str.to_int word = Some n /\ Emp_ID emp = Z.of_N n) \/
   Str.contains (Str.lower (Emp_Name emp)) (normalize question) = true).
Proof.
  unfold resolution. destruct (reaches_ids _ _); [|discriminate].
  destruct (id_match employee_df (normalize question)) as [e| |] eqn:E;
    [| |discriminate].
  - intros [= ->]. apply id_scan_hit in E.
    destruct E as (w & n & Hin & _ & Hn & Hby).
    apply find_some in Hby. destruct Hby as [Hrow Hid].
    apply Z.eqb_eq in Hid. split; [assumption|]. left. now exists w, n.
  - intros H. apply find_some in H. destruct H as [Hrow Hname]. auto.
Qed.

(** C5: [retrieve_context] writes the conversation pointer only when the
    question resolves an employee, by the ID block or by the name block;
    on every other path (salary filter, the holiday blocks, the employee
    count, the pronoun follow-up, the policy fallback, the final no-answer
    and the raising paths) the pointer after the call is the pointer before
    it; and the pointer is empty after a call only if it was empty before
    and nothing was resolved, so no path clears it. *)
Theorem pointer_written_only_by_resolution last_employee today question :
  snd (route last_employee today question) =
    match resolved today question with
    | Some emp => Some emp
    | None => last_employee
    end
  /\ is_none (snd (route last_employee today question)) =
       is_none last_employee && is_none (resolved today question)
  /\ (resolved today question = None \/
      exists emp, resolved today question = Some emp /\
        In emp employee_df /\
        ((exists word n, In word (Str.split (normalize question)) /\
            Str.to_int word = Some n /\ Emp_ID emp = Z.of_N n) \/
         Str.contains (Str.lower (Emp_Name emp)) (normalize question) = true)).
Proof.
  split; [apply route_pointer|]. split.
  - rewrite route_pointer. destruct (resolved today question); simpl.
    + now rewrite andb_false_r.
    + now rewrite andb_true_r.
  - destruct (resolved today question) as [emp|] eqn:E; [right | now left].
    exists emp. split; [reflexivity|]. now apply (resolution_sound today).
Qed.

(** *** The strict employee count *)

Lemma employee_count_fires q :
  employee_count employee_df q <> None <->
  q = "how many employees" \/ q = "how many employees?".
Proof.
  unfold employee_count. rewrite <- ReFacts.fullmatch_iff.
  destruct (Re.fullmatch_how_many_employees q); split; congruence.
Qed.

(** The two questions of the strict count pass the salary block and the
    three holiday blocks that look for the word "holiday". *)
Lemma count_question_reaches_named today q :
  q = "how many employees" \/ q = "how many employees?" ->
  reaches_named today q = true.
Proof. intros [-> | ->]; reflexivity. Qed.

(** C6: the strict employee count fires exactly on the two normalized
    questions "how many employees" and "how many employees?".  On them the
    router answers with the number of rows of the employee table (no
    holiday being named by the question, the holiday-name block coming
    first); on any other question that reaches the block, such as "how many
    employees are there in total" or "how many employees are salaried", the
    block does not fire and the router goes on with the ID block. *)
Theorem employee_count_is_strict :
  (forall q, employee_count employee_df q <> None <->
             q = "how many employees" \/ q = "how many employees?")
  /\ (forall last_employee today question,
        normalize question = "how many employees" \/
        normalize question = "how many employees?" ->
        specific_holiday holidays (normalize question) = None ->
        route last_employee today question =
        (Text ("There are " ++ Str.of_nat (List.length employee_df)
                 ++ " employees."), last_employee))
  /\ (forall last_employee today question,
        reaches_named today (normalize question) = true ->
        specific_holiday holidays (normalize question) = None ->
        normalize question <> "how many employees" ->
        normalize question <> "how many employees?" ->
        route last_employee today question =
        from_id employee_df similarity_search last_employee question
          (normalize question))
  /\ employee_count employee_df "how many employees are there in total" = None
  /\ employee_count employee_df "how many employees are salaried" = None.
Proof.
  split; [exact employee_count_fires|]. split; [|split; [|split; reflexivity]].
  - intros last_employee today question Hq Hh.
    rewrite route_from_specific_holiday
      by now apply count_question_reaches_named.
    unfold from_specific_holiday, from_employee_count. rewrite Hh.
    destruct Hq as [-> | ->]; reflexivity.
  - intros last_employee today question Hr Hh H1 H2.
    rewrite route_from_specific_holiday by assumption.
    unfold from_specific_holiday, from_employee_count. rewrite Hh.
    destruct (employee_count employee_df (normalize question)) eqn:E;
      [|reflexivity].
    assert (Hf : employee_count employee_df (normalize question) <> None)
      by congruence.
    apply employee_count_fires in Hf. tauto.
Qed.

(** *** The pronoun follow-up *)

(** C9: the pronoun test is plain substring containment.  Whenever one of
    "his", "her", "him", "he", "she" occurs anywhere in the lower-cased
    question, inside a longer word or not, the pointer holds an employee
    and no earlier block claims the question, the router answers with the
    field response of the pointed-to employee and leaves the pointer as it
    is. *)
Theorem pronoun_is_substring_test emp today question p before after :
  In p pronouns ->
  Str.lower question = before ++ p ++ after ->
  reaches_pron today (normalize question) = true ->
  route (Some emp) today question =
  (Text (employee_field_response emp (normalize question)), Some emp).
Proof.
  intros Hp Hq Hr. rewrite route_from_pronoun by assumption.
  unfold from_pronoun.
  assert (H : Str.contains_any pronouns (normalize question) = true).
  { apply existsb_exists. exists p. split; [assumption|].
    apply StrFacts.contains_strip.
    - simpl in Hp. decompose [or] Hp; subst; try reflexivity; contradiction.
    - rewrite Hq. apply StrFacts.contains_mid. }
  now rewrite H.
Qed.

(** *** Sequences of calls *)

Lemma run_is_fold : forall calls last_employee,
  run employee_df holidays strptime similarity_search last_employee calls =
  fold_left
    (fun acc call =>
       match resolved (fst call) (snd call) with
       | Some emp => Some emp
       | None => acc
       end)
    calls last_employee.
Proof.
  induction calls as [|[today question] calls IH]; intros last_employee;
    simpl; [reflexivity|].
  now rewrite IH, route_pointer.
Qed.

(** C4: after any sequence of calls that starts with an empty pointer, the
    pointer is the employee resolved by the latest call that resolved one
    (by ID or by name), or empty if no call did.  A question with a pronoun
    that reaches the pronoun block is then answered with the field response
    of that employee; if no call resolved anyone the pronoun block does not
    fire and the router goes on to the policy block, which for "what is his
    salary?" ends in the fixed no-answer message. *)
Theorem pronoun_follows_last_resolution calls today question :
  reaches_pron today (normalize question) = true ->
  Str.contains_any pronouns (normalize question) = true ->
  let pointer :=
    run employee_df holidays strptime similarity_search None calls in
  pointer = last_resolution employee_df holidays strptime calls /\
  match last_resolution employee_df holidays strptime calls with
  | Some emp =>
      route pointer today question =
      (Text (employee_field_response emp (normalize question)), Some emp)
  | None =>
      route pointer today question =
      from_policy similarity_search None question (normalize question) /\
      (normalize question = "what is his salary?" ->
       route pointer today question = (Text "Information not available.", None))
  end.
Proof.
  intros Hr Hp pointer.
  assert (E : pointer = last_resolution employee_df holidays strptime calls)
    by apply run_is_fold.
  split; [exact E|]. rewrite <- E.
  rewrite route_from_pronoun by assumption. unfold from_pronoun.
  destruct pointer as [emp|].
  - now rewrite Hp.
  - split; [reflexivity|]. intros ->. reflexivity.
Qed.

(** *** The upcoming holiday *)

Lemma scanned_skip today done up ud h d :
  scanned strptime today done up ud ->
  strptime (date h) = Some d ->
  (match ud with
   | Some best => DateTime.le today d -> DateTime.le best d
   | None => DateTime.lt d today
   end) ->
  scanned strptime today (done ++ [h])%list up ud.
Proof.
  intros Hs Hd Hcmp. destruct Hs as [Hnone | h0 d0 l1 l2 -> H0 Hq Hl1 Hl2].
  - apply scanned_none. intros h' d' Hin Hd'.
    apply in_app_or in Hin. destruct Hin as [Hin | [<- | []]]; eauto.
    congruence.
  - apply (scanned_some strptime today _ h0 d0 l1 (l2 ++ [h])%list); auto.
    + now rewrite <- app_assoc.
    + intros h' d' Hin Hd' Hq'.
      apply in_app_or in Hin. destruct Hin as [Hin | [<- | []]]; eauto.
      assert (d' = d) by congruence. subst d'. auto.
Qed.

Lemma scanned_take today done up ud h d :
  scanned strptime today done up ud ->
  strptime (date h) = Some d ->
  DateTime.le today d ->
  (match ud with Some best => DateTime.lt d best | None => True end) ->
  scanned strptime today (done ++ [h])%list (Some h) (Some d).
Proof.
  intros Hs Hd Hq Hcmp.
  apply (scanned_some strptime today _ h d done []); auto.
  - intros h' d' Hin Hd' Hq'.
    destruct Hs as [Hnone | h0 d0 l1 l2 -> H0 Hq0 Hl1 Hl2].
    + specialize (Hnone _ _ Hin Hd'). DateTimeFacts.order.
    + apply in_app_or in Hin. destruct Hin as [Hin | [<- | Hin]].
      * specialize (Hl1 _ _ Hin Hd' Hq'). DateTimeFacts.order.
      * assert (d' = d0) by congruence. subst d'. exact Hcmp.
      * specialize (Hl2 _ _ Hin Hd' Hq'). DateTimeFacts.order.
  - intros h' d' [].
Qed.

(** The loop ends without raising when every date parses, and keeps the
    invariant. *)
Lemma upcoming_scan_scanned today : forall hs done up ud,
  Forall (fun h => strptime (date h) <> None) hs ->
  scanned strptime today done up ud ->
  exists up' ud',
    upcoming_scan strptime today hs up ud = Some up' /\
    scanned strptime today (done ++ hs)%list up' ud'.
Proof.
  induction hs as [|h hs IH]; intros done up ud Hparse Hs; simpl.
  - exists up, ud. now rewrite app_nil_r.
  - inversion Hparse as [|? ? Hh Hrest]; subst.
    destruct (strptime (date h)) as [d|] eqn:Hd; [|contradiction].
    replace (done ++ h :: hs)%list with ((done ++ [h]) ++ hs)%list
      by now rewrite <- app_assoc.
    destruct (DateTimeFacts.leb_spec today d) as [[-> Hq]|[-> Hq]].
    + destruct ud as [best|].
      * destruct (DateTimeFacts.ltb_spec d best) as [[-> Hlt]|[-> Hge]].
        -- apply IH; [assumption|]. now apply (scanned_take today done up (Some best)).
        -- apply IH; [assumption|]. now apply (scanned_skip today done up (Some best) h d).
      * apply IH; [assumption|]. now apply (scanned_take today done up None).
    + apply IH; [assumption|].
      apply (scanned_skip today done up ud h d); auto.
      destruct ud; [intros Hq'; DateTimeFacts.order | assumption].
Qed.

(** What the upcoming-holiday block does: a question whose lower-cased
    text has "upcoming" and "holiday" and that no earlier block claims is
    answered with the holiday whose parsed date is the earliest among the
    loaded holidays whose parsed date is not before the current instant,
    and among holidays of that same date with the first one in load order:
    every qualifying holiday before it in the list is strictly later, every
    qualifying one after it is not earlier.  If no holiday qualifies, the
    block gives no answer and the router goes on with the holiday-name
    block.  The comparison is between instants: the parsed date of a
    holiday is the midnight that begins its day, the current instant has
    the time of day in it. *)
Theorem upcoming_is_earliest_first_loaded last_employee today question :
  dates_parse holidays strptime ->
  Str.contains "upcoming" (Str.lower question) = true ->
  Str.contains "holiday" (Str.lower question) = true ->
  salary_filter employee_df (normalize question) = Fallthrough ->
  count_holidays holidays (normalize question) = None ->
  list_holidays holidays (normalize question) = None ->
  (exists h d l1 l2,
      holidays = (l1 ++ h :: l2)%list /\
      strptime (date h) = Some d /\ DateTime.le today d /\
      (forall h' d', In h' l1 -> strptime (date h') = Some d' ->
                     DateTime.le today d' -> DateTime.lt d d') /\
      (forall h' d', In h' l2 -> strptime (date h') = Some d' ->
                     DateTime.le today d' -> DateTime.le d d') /\
      route last_employee today question =
      (Text ("Upcoming holiday is " ++ occasion h ++ " on " ++ date h
               ++ " (" ++ day h ++ ")."), last_employee))
  \/
  ((forall h d, In h holidays -> strptime (date h) = Some d ->
                DateTime.lt d today) /\
   route last_employee today question =
   from_specific_holiday employee_df holidays similarity_search
     last_employee question (normalize question)).
Proof.
  intros Hparse Hup Hhol Hsal Hcount Hlist.
  apply StrFacts.contains_strip in Hup; [|reflexivity].
  apply StrFacts.contains_strip in Hhol; [|reflexivity].
  fold (normalize question) in Hup, Hhol.
  destruct (upcoming_scan_scanned today holidays [] None None Hparse)
    as (up & ud & Hscan & Hinv).
  { apply scanned_none. intros h d []. }
  simpl in Hinv.
  unfold retrieve_context, from_count_holidays, from_list_holidays,
    from_upcoming, upcoming_holiday.
  rewrite Hsal, Hcount, Hlist, Hup, Hhol, Hscan. simpl.
  destruct Hinv as [Hnone | h d l1 l2 Hsplit Hd Hq Hl1 Hl2].
  - right. split; [exact Hnone | reflexivity].
  - left. exists h, d, l1, l2. repeat (split; [assumption|]). reflexivity.
Qed.

(** *** Exceptions *)

Lemma id_scan_no_raise : forall words,
  Forall (fun w => Str.all (fun c => negb (Char.issuperscript c)) w = true) words ->
  Forall (fun w => Str.all Char.isdecimal w = true ->
                   within_digit_limit (String.length w)) words ->
  id_scan employee_df words <> Raise.
Proof.
  induction words as [|w ws IH]; simpl; [discriminate|].
  intros H Hfit. inversion H as [|? ? Hw Hws]; subst.
  inversion Hfit as [|? ? Hwfit Hwsfit]; subst.
  destruct (Str.isdigit w) eqn:Hd; [|now apply IH].
  unfold Str.isdigit in Hd. apply andb_true_iff in Hd. destruct Hd as [Hne Hdig].
  pose proof (IntFacts.digits_without_superscripts w Hdig Hw) as Hdec.
  assert (Hint : Str.to_int w <> None).
  { apply IntFacts.to_int_decimals; [|assumption|now apply Hwfit].
    now destruct w. }
  destruct (Str.to_int w) as [n|]; [|contradiction].
  destruct (by_id employee_df (Z.of_N n)); [discriminate | now apply IH].
Qed.

Lemma upcoming_holiday_no_raise today q :
  dates_parse holidays strptime ->
  upcoming_holiday holidays strptime today q <> Raise.
Proof.
  intros Hparse. unfold upcoming_holiday.
  destruct (Str.contains "upcoming" q && Str.contains "holiday" q);
    [|discriminate].
  destruct (upcoming_scan_scanned today holidays [] None None Hparse)
    as (up & ud & Hscan & _).
  { apply scanned_none. intros h d []. }
  rewrite Hscan. destruct up; discriminate.
Qed.

(** C1, as the code has it: when every holiday date parses, every
    employee has a name, and the question has none of the superscript
    digits and no run of decimal digits longer than [int] converts,
    [retrieve_context] does not raise, so it returns a string or [None];
    and a question that reaches the policy block with a policy word gets
    the passages found, joined by newlines and tagged "RAG::", when that
    text is not empty, and [None] when it is empty: neither the bare tag
    nor the no-answer sentence.

    The conditions on the question are those under which no call of [int]
    fails: [int] is called on the digits after a salary comparison and on
    every word of the question that [str.isdigit] accepts, and both are
    stretches of the question.  The condition on the names stands for the
    table as pandas reads it: a row without a name has no string in that
    column, and the statement says nothing about such a table. *)
Theorem route_returns_and_empty_context_is_none last_employee today question :
  dates_parse holidays strptime ->
  Forall (fun e => Emp_Name e <> "") employee_df ->
  Str.all (fun c => negb (Char.issuperscript c)) question = true ->
  within_digit_limit (longest_run Char.isdecimal question) ->
  ((exists s, fst (route last_employee today question) = Text s) \/
   fst (route last_employee today question) = NoneValue) /\
  (reaches_pol last_employee today (normalize question) = true ->
   Str.contains_any policy_words (normalize question) = true ->
   route last_employee today question =
   (match Str.join Str.nl (similarity_search question 2) with
    | "" => NoneValue
    | String c context => Text ("RAG::" ++ String c context)
    end, last_employee)).
Proof.
  intros Hparse _ Hplain Hfit. split.
  - assert (Hret : fst (route last_employee today question) <> Raised);
      [|destruct (fst (route last_employee today question));
        [left; eexists; reflexivity | now right | contradiction]].
    assert (Hid : id_match employee_df (normalize question) <> Raise).
    { apply id_scan_no_raise.
      - apply StrFacts.all_split, StrFacts.all_strip.
        rewrite StrFacts.all_lower; [assumption|].
        intros c. now rewrite CharFacts.issuperscript_lower.
      - apply Forall_forall. intros w Hin Hdec.
        apply StrFacts.split_inside in Hin. destruct Hin as (a & b & Ein).
        apply (RunFacts.within_le _ _
                 (RunFacts.decimals_of_normalized question a w b Ein Hdec)
                 Hfit). }
    pose proof (salary_filter_no_raise question Hfit) as Hsal.
    pose proof (upcoming_holiday_no_raise today (normalize question) Hparse) as Hup.
    unfold retrieve_context, from_count_holidays, from_list_holidays,
      from_upcoming, from_specific_holiday, from_employee_count, from_id,
      from_name, from_pronoun, from_policy, rag.
    destruct (salary_filter _ _); try discriminate; try contradiction.
    destruct (count_holidays _ _); try discriminate.
    destruct (list_holidays _ _); try discriminate.
    destruct (upcoming_holiday _ _ _ _); try discriminate; try contradiction.
    destruct (specific_holiday _ _); try discriminate.
    destruct (employee_count _ _); try discriminate.
    destruct (id_match _ _); try discriminate; try contradiction.
    destruct (name_match _ _); try discriminate.
    destruct last_employee;
      repeat (destruct (Str.contains_any _ _)); try discriminate;
      destruct (Str.join _ _); discriminate.
  - intros Hr Hpol. rewrite route_from_policy by assumption.
    unfold from_policy, rag. rewrite Hpol.
    destruct (Str.join Str.nl (similarity_search question 2)); reflexivity.
Qed.

(** *** Case and outer blanks *)

Lemma same_letters_lower a b : same_letters a b -> Str.lower a = Str.lower b.
Proof.
  induction 1 as [|x y s t Hxy _ IH]; simpl; [reflexivity|].
  rewrite IH. f_equal.
  destruct Hxy as [-> | [-> | ->]]; now rewrite ?CharFacts.lower_lower.
Qed.

Lemma normalize_between_blanks l c r :
  blank l -> blank r ->
  normalize (l ++ c ++ r) = Str.strip (Str.lower c).
Proof.
  intros Hl Hr. unfold normalize.
  rewrite !StrFacts.lower_app, (StrFacts.lower_blank l), (StrFacts.lower_blank r)
    by assumption.
  now apply StrFacts.strip_between_blanks.
Qed.

Lemma normalize_same a b :
  differ_in_case_and_outer_blanks a b -> normalize a = normalize b.
Proof.
  intros (la & ca & ra & lb & cb & rb & -> & -> & Hla & Hra & Hlb & Hrb & Hc).
  rewrite !normalize_between_blanks by assumption.
  now rewrite (same_letters_lower _ _ Hc).
Qed.

(** The original question is used by the policy block alone. *)
Lemma route_of_normalized last_employee today a b :
  normalize a = normalize b ->
  if reaches_pol last_employee today (normalize a)
     && Str.contains_any policy_words (normalize a)
  then route last_employee today a = (rag similarity_search a, last_employee) /\
       route last_employee today b = (rag similarity_search b, last_employee)
  else route last_employee today a = route last_employee today b.
Proof.
  intros E.
  unfold reaches_policy, reaches_pronoun, reaches_id, reaches_specific_holiday,
    pronoun_fires.
  unfold retrieve_context, from_count_holidays, from_list_holidays,
    from_upcoming, from_specific_holiday, from_employee_count, from_id,
    from_name, from_pronoun, from_policy.
  rewrite <- E.
  set (pro := Str.contains_any pronouns (normalize a)).
  set (pol := Str.contains_any policy_words (normalize a)).
  destruct (salary_filter _ _); try reflexivity.
  destruct (count_holidays _ _); try reflexivity.
  destruct (list_holidays _ _); try reflexivity.
  destruct (upcoming_holiday _ _ _ _); try reflexivity.
  destruct (specific_holiday _ _); try reflexivity.
  destruct (employee_count _ _); try reflexivity.
  destruct (id_match _ _); try reflexivity.
  destruct (name_match _ _); try reflexivity.
  destruct last_employee; destruct pro; destruct pol; cbn; auto.
Qed.

(** C10: two questions that differ only in letter case and in the blanks
    around them have the same normalized text, on which every test of the
    router is made; from the same pointer and at the same instant the two
    calls therefore take the same path, and give the same result and the
    same pointer on every path but the policy block, where each call hands
    its own question, as it was typed, to the similarity search. *)
Theorem case_and_outer_blanks_do_not_matter last_employee today a b :
  differ_in_case_and_outer_blanks a b ->
  normalize a = normalize b /\
  if reaches_pol last_employee today (normalize a)
     && Str.contains_any policy_words (normalize a)
  then route last_employee today a = (rag similarity_search a, last_employee) /\
       route last_employee today b = (rag similarity_search b, last_employee)
  else route last_employee today a = route last_employee today b.
Proof.
  intros H. apply normalize_same in H. split; [exact H|].
  now apply route_of_normalized.
Qed.

(** *** Holidays by name *)

Lemma normalize_occasion_date name :
  Re.head_isword name = true ->
  normalize (name ++ " date?") = Str.lower name ++ " date?".
Proof.
  intros Hh. unfold normalize. rewrite StrFacts.lower_app.
  change (Str.lower " date?") with " date?".
  destruct name as [|c name]; [discriminate|]. simpl in Hh.
  unfold Str.strip. simpl Str.lower. simpl Str.lstrip.
  rewrite CharFacts.isspace_lower, (CharFacts.word_not_space c Hh).
  change " date?" with (" date" ++ "?").
  change (String (Char.lower c) (Str.lower name ++ " date" ++ "?"))
    with (String (Char.lower c) (Str.lower name) ++ " date" ++ "?").
  rewrite <- StrFacts.app_assoc.
  apply StrFacts.rstrip_nonblank_end; [discriminate | reflexivity].
Qed.

Lemma find_first {A} (f : A -> bool) l1 x l2 :
  forallb (fun y => negb (f y)) l1 = true -> f x = true ->
  find f (l1 ++ x :: l2)%list = Some x.
Proof.
  intros H1 Hx. induction l1 as [|y l1 IH]; simpl.
  - now rewrite Hx.
  - simpl in H1. apply andb_true_iff in H1. destruct H1 as [Hy H1].
    apply negb_true_iff in Hy. rewrite Hy. now apply IH.
Qed.

(** C7, as the code has it: for a loaded holiday whose occasion name
    begins and ends with a word character, the question made of the name
    followed by " date?" is answered by the holiday-name block with the
    sentence of that holiday, which contains its date and its weekday,
    provided no earlier block claims the question and no holiday earlier
    in load order has its name as a whole word in it. *)
Theorem named_holiday_round_trip last_employee today h l1 l2 :
  holidays = (l1 ++ h :: l2)%list ->
  Re.head_isword (occasion h) = true ->
  Re.last_isword false (occasion h) = true ->
  reaches_named today (normalize (occasion h ++ " date?")) = true ->
  forallb (fun h' => negb (names_holiday (normalize (occasion h ++ " date?")) h'))
    l1 = true ->
  route last_employee today (occasion h ++ " date?") =
  (Text (occasion h ++ " is on " ++ date h ++ " (" ++ day h ++ ")."),
   last_employee)
  /\ Str.contains (date h)
       (occasion h ++ " is on " ++ date h ++ " (" ++ day h ++ ").") = true
  /\ Str.contains (day h)
       (occasion h ++ " is on " ++ date h ++ " (" ++ day h ++ ").") = true.
Proof.
  intros Hsplit Hhead Hlast Hreach Hearlier. split; [|split].
  - rewrite route_from_specific_holiday by assumption.
    unfold from_specific_holiday, specific_holiday. rewrite Hsplit.
    rewrite find_first; [reflexivity | assumption |].
    unfold names_holiday. rewrite normalize_occasion_date by assumption.
    apply ReFacts.word_search_head.
    + now rewrite ReFacts.head_isword_lower.
    + now rewrite ReFacts.last_isword_lower.
    + reflexivity.
  - rewrite <- (StrFacts.app_assoc (occasion h) " is on ").
    apply StrFacts.contains_mid.
  - rewrite <- (StrFacts.app_assoc (date h) " (").
    rewrite <- (StrFacts.app_assoc " is on ").
    rewrite <- (StrFacts.app_assoc (occasion h)).
    apply StrFacts.contains_mid.
Qed.

(** *** Salary thresholds *)

Lemma normalize_before_decimals p ds :
  Re.head_isword p = true -> Str.lower p = p ->
  ds <> "" -> Str.all Char.isdecimal ds = true ->
  normalize (p ++ ds) = p ++ ds.
Proof.
  intros Hh Hl Hne Hds. unfold normalize.
  rewrite StrFacts.lower_app, Hl.
  rewrite (StrFacts.lower_fixed Char.isdecimal ds CharFacts.decimal_lower Hds).
  unfold Str.strip.
  destruct p as [|c p]; [discriminate|]. simpl in Hh.
  simpl Str.lstrip. rewrite (CharFacts.word_not_space c Hh).
  apply (StrFacts.rstrip_nonblank_end (String c p)); [assumption|].
  apply (StrFacts.all_impl Char.isdecimal); [|assumption].
  intros x Hx. now rewrite (CharFacts.decimal_not_space x Hx).
Qed.

Lemma amount_after_blank ds :
  ds <> "" -> Str.all Char.isdecimal ds = true ->
  Re.amount_after (String " " ds) = Some ds.
Proof.
  intros Hne Hds. unfold Re.amount_after.
  destruct ds as [|d ds]; [contradiction|].
  assert (Hd : Char.isdecimal d = true).
  { simpl in Hds. now apply andb_true_iff in Hds. }
  change (Str.span Char.isspace (String " " (String d ds)))
    with (let (a, b) := Str.span Char.isspace (String d ds) in (String " " a, b)).
  rewrite (IntFacts.span_none Char.isspace d ds (CharFacts.decimal_not_space d Hd)).
  cbn [snd]. now rewrite (IntFacts.span_all Char.isdecimal _ Hds).
Qed.

(** The match of the salary pattern in the four threshold questions. *)
Lemma salary_search_threshold ds :
  ds <> "" -> Str.all Char.isdecimal ds = true ->
  Re.salary_search ("salary greater than " ++ ds) = Some ("greater than", ds) /\
  Re.salary_search ("salary less than " ++ ds) = Some ("less than", ds) /\
  Re.salary_search ("list salary greater than " ++ ds) = Some ("greater than", ds) /\
  Re.salary_search ("list salary less than " ++ ds) = Some ("less than", ds).
Proof.
  intros Hne Hds. pose proof (amount_after_blank ds Hne Hds) as E.
  repeat split; cbn -[Re.amount_after]; now rewrite E.
Qed.

Lemma salary_filter_threshold p condition n :
  Re.salary_search (p ++ Str.of_N n) = Some (condition, Str.of_N n) ->
  Str.contains "salary" p = true ->
  within_digit_limit (String.length (Str.of_N n)) ->
  salary_filter employee_df (p ++ Str.of_N n) =
  Return (salary_answer employee_df (p ++ Str.of_N n) condition (Z.of_N n)).
Proof.
  intros Hs Hc Hfit. unfold salary_filter. rewrite Hs.
  rewrite StrFacts.contains_before_decimals, Hc
    by (apply IntFacts.of_N_decimals || reflexivity).
  now rewrite IntFacts.to_int_of_N.
Qed.

Lemma route_threshold last_employee today p condition n :
  Re.head_isword p = true -> Str.lower p = p ->
  Re.salary_search (p ++ Str.of_N n) = Some (condition, Str.of_N n) ->
  Str.contains "salary" p = true ->
  within_digit_limit (String.length (Str.of_N n)) ->
  route last_employee today (p ++ Str.of_N n) =
  (Text
     (let filtered := salary_rows employee_df condition (Z.of_N n) in
      if Str.contains "list" p then
        match filtered with
        | [] => "No employees found."
        | _ => "Employees matching salary condition:" ++ Str.nl
                 ++ Str.join Str.nl (map salary_line filtered)
        end
      else Str.of_nat (List.length filtered)
             ++ " employees match the salary condition."),
   last_employee).
Proof.
  intros Hh Hl Hs Hc Hfit. unfold retrieve_context.
  rewrite normalize_before_decimals
    by (assumption || apply IntFacts.of_N_nonempty || apply IntFacts.of_N_decimals).
  rewrite (salary_filter_threshold p condition n Hs Hc Hfit).
  unfold salary_answer.
  rewrite StrFacts.contains_before_decimals
    by (apply IntFacts.of_N_decimals || reflexivity).
  reflexivity.
Qed.

(** Beyond the limit of [int] the salary block raises: a threshold
    question whose numeral has more digits than [int] converts ends in an
    exception, and the pointer stays as it was. *)
Lemma threshold_beyond_limit_raises last_employee today ds :
  ds <> "" -> Str.all Char.isdecimal ds = true ->
  ~ within_digit_limit (String.length ds) ->
  route last_employee today ("salary greater than " ++ ds) =
  (Raised, last_employee).
Proof.
  intros Hne Hds Hlong. unfold retrieve_context.
  rewrite normalize_before_decimals by (assumption || reflexivity).
  destruct (salary_search_threshold ds Hne Hds) as (S1 & _).
  unfold salary_filter. rewrite S1.
  rewrite StrFacts.contains_before_decimals by (assumption || reflexivity).
  change (Str.contains "salary" "salary greater than ") with true. cbv iota.
  now rewrite (IntFacts.to_int_beyond ds Hlong).
Qed.

(** C3, as the code has it: for every threshold [T] that is a natural
    number of no more decimal digits than [int] converts, written in
    decimal, the question "salary greater than T" is answered with the
    number of employees whose salary is strictly above [T], and "salary
    less than T" with the number of those strictly below; with "list" in
    front, the answer is one "Name - Salary" line for each such row of the
    table, in the order of the table, under a heading, or the sentence
    "No employees found." when there is no such row. *)
Theorem salary_threshold_answers last_employee today (T : N) :
  within_digit_limit (String.length (Str.of_N T)) ->
  let above := filter (fun e => (Z.of_N T <? Salary e)%Z) employee_df in
  let below := filter (fun e => (Salary e <? Z.of_N T)%Z) employee_df in
  let line := fun e => Emp_Name e ++ " - " ++ Str.of_Z (Salary e) in
  let listing := fun rows =>
    match rows with
    | [] => "No employees found."
    | _ => "Employees matching salary condition:" ++ Str.nl
             ++ Str.join Str.nl (map line rows)
    end in
  route last_employee today ("salary greater than " ++ Str.of_N T) =
    (Text (Str.of_nat (List.length above)
             ++ " employees match the salary condition."), last_employee)
  /\ route last_employee today ("salary less than " ++ Str.of_N T) =
    (Text (Str.of_nat (List.length below)
             ++ " employees match the salary condition."), last_employee)
  /\ route last_employee today ("list salary greater than " ++ Str.of_N T) =
    (Text (listing above), last_employee)
  /\ route last_employee today ("list salary less than " ++ Str.of_N T) =
    (Text (listing below), last_employee)
  /\ (forall e, In e above <-> In e employee_df /\ (Z.of_N T < Salary e)%Z)
  /\ (forall e, In e below <-> In e employee_df /\ (Salary e < Z.of_N T)%Z).
Proof.
  intros HT above below line listing.
  destruct (salary_search_threshold (Str.of_N T)
              (IntFacts.of_N_nonempty T) (IntFacts.of_N_decimals T))
    as (S1 & S2 & S3 & S4).
  split; [|split; [|split; [|split; [|split]]]].
  - now rewrite (route_threshold last_employee today "salary greater than "
                   "greater than" T eq_refl eq_refl S1 eq_refl HT).
  - now rewrite (route_threshold last_employee today "salary less than "
                   "less than" T eq_refl eq_refl S2 eq_refl HT).
  - now rewrite (route_threshold last_employee today "list salary greater than "
                   "greater than" T eq_refl eq_refl S3 eq_refl HT).
  - now rewrite (route_threshold last_employee today "list salary less than "
                   "less than" T eq_refl eq_refl S4 eq_refl HT).
  - intros e. unfold above. now rewrite filter_In, Z.ltb_lt.
  - intros e. unfold below. now rewrite filter_In, Z.ltb_lt.
Qed.

End RouterFacts.

(** ** The field formatter *)

(** C8, as the code has it: for every employee row and every question the
    formatter gives the sentence of the first keyword group, in the order
    age, gender, salary, designation, email, phone, experience and then
    "details" or "who is", that has a keyword in the question; so a
    question with "salary" and "email" but neither "age" nor "gender" gets
    the salary sentence; and a question with none of the keywords gets
    "Information not available.". *)
Theorem field_response_first_keyword row q :
  employee_field_response row q = first_keyword_response row q
  /\ (Str.contains "salary" q = true -> Str.contains "email" q = true ->
      Str.contains "age" q = false -> Str.contains "gender" q = false ->
      employee_field_response row q =
      Emp_Name row ++ "'s salary is " ++ Str.of_Z (Salary row) ++ ".")
  /\ (Str.contains_any
        ["age"; "gender"; "salary"; "designation"; "email"; "phone";
         "experience"; "details"; "who is"] q = false ->
      employee_field_response row q = "Information not available.").
Proof.
  unfold employee_field_response, first_keyword_response, field_table,
    Str.contains_any.
  cbn [find existsb fst snd].
  split; [|split].
  - destruct (Str.contains "age" q); [reflexivity|].
    destruct (Str.contains "gender" q); [reflexivity|].
    destruct (Str.contains "salary" q); [reflexivity|].
    destruct (Str.contains "designation" q); [reflexivity|].
    destruct (Str.contains "email" q); [reflexivity|].
    destruct (Str.contains "phone" q); [reflexivity|].
    destruct (Str.contains "experience" q); [reflexivity|].
    destruct (Str.contains "details" q); [reflexivity|].
    destruct (Str.contains "who is" q); reflexivity.
  - intros Hs He Ha Hg. now rewrite Ha, Hg, Hs.
  - intros H.
    destruct (Str.contains "age" q); [discriminate|].
    destruct (Str.contains "gender" q); [discriminate|].
    destruct (Str.contains "salary" q); [discriminate|].
    destruct (Str.contains "designation" q); [discriminate|].
    destruct (Str.contains "email" q); [discriminate|].
    destruct (Str.contains "phone" q); [discriminate|].
    destruct (Str.contains "experience" q); [discriminate|].
    destruct (Str.contains "details" q); [discriminate|].
    destruct (Str.contains "who is" q); [discriminate|].
    reflexivity.
Qed.

(** ** The properties on the sample data *)

Lemma sample_dates_parse : dates_parse Sample.holidays Sample.strptime.
Proof. unfold dates_parse. repeat constructor; discriminate. Qed.

(** With no passage found, the policy block returns [None], not the
    no-answer sentence; and on a superscript digit the ID block raises. *)
Lemma empty_context_is_none_and_superscript_raises :
  Str.contains_any policy_words (normalize "attendance policy") = true /\
  Sample.similarity_search "attendance policy" 2 = [] /\
  fst (Sample.route None Sample.today "attendance policy") = NoneValue /\
  fst (Sample.route None Sample.today "attendance policy")
    <> Text "Information not available." /\
  fst (Sample.route None Sample.today Sample.superscript_two) = Raised.
Proof. repeat split; vm_compute; try reflexivity. discriminate. Qed.

Lemma route_returns_and_empty_context_is_none_witness :
  ((exists s, fst (Sample.route None Sample.today "attendance policy") = Text s) \/
   fst (Sample.route None Sample.today "attendance policy") = NoneValue) /\
  Sample.route None Sample.today "attendance policy" = (NoneValue, None).
Proof.
  destruct (route_returns_and_empty_context_is_none
              Sample.employees Sample.holidays Sample.strptime
              Sample.similarity_search None Sample.today "attendance policy")
    as [H1 H2].
  - exact sample_dates_parse.
  - repeat constructor; discriminate.
  - reflexivity.
  - apply N.leb_le. reflexivity.
  - split; [exact H1|]. apply H2; reflexivity.
Defined.

(** Of the two holidays of 19 March, the first in the file is chosen. *)
Lemma upcoming_is_earliest_first_loaded_witness :
  (exists h d l1 l2,
      Sample.holidays = (l1 ++ h :: l2)%list /\
      Sample.strptime (date h) = Some d /\ DateTime.le Sample.today d /\
      (forall h' d', In h' l1 -> Sample.strptime (date h') = Some d' ->
                     DateTime.le Sample.today d' -> DateTime.lt d d') /\
      (forall h' d', In h' l2 -> Sample.strptime (date h') = Some d' ->
                     DateTime.le Sample.today d' -> DateTime.le d d') /\
      Sample.route None Sample.today "  Upcoming HOLIDAY? " =
      (Text ("Upcoming holiday is " ++ occasion h ++ " on " ++ date h
               ++ " (" ++ day h ++ ")."), None))
  \/
  ((forall h d, In h Sample.holidays -> Sample.strptime (date h) = Some d ->
                DateTime.lt d Sample.today) /\
   Sample.route None Sample.today "  Upcoming HOLIDAY? " =
   from_specific_holiday Sample.employees Sample.holidays
     Sample.similarity_search None "  Upcoming HOLIDAY? "
     (normalize "  Upcoming HOLIDAY? ")).
Proof.
  apply (upcoming_is_earliest_first_loaded
           Sample.employees Sample.holidays Sample.strptime
           Sample.similarity_search None Sample.today "  Upcoming HOLIDAY? ").
  - exact sample_dates_parse.
  - reflexivity.
  - reflexivity.
  - reflexivity.
  - reflexivity.
  - reflexivity.
Defined.

(** C2 at a failing input.  On the morning of a holiday, the holiday of
    the day is dated on the current date, and the router passes it over:
    its parsed date is the midnight before the current instant.  At 09:30
    on 19 March 2026 the answer is the holiday of 15 August, not the one of
    19 March, which is the answer only at midnight sharp; and at 09:30 on
    25 December, the day of the last holiday of the list, the block gives
    no answer at all. *)
Lemma holiday_of_today_is_passed_over :
  Sample.strptime (date Sample.ugadi) =
    Some (DateTime.midnight (DateTime.day_number Sample.ugadi_morning))
  /\ Sample.route None Sample.ugadi_morning "upcoming holiday" =
    (Text "Upcoming holiday is Independence Day on 15-Aug-26 (Saturday).", None)
  /\ Sample.route None Sample.ugadi_midnight "upcoming holiday" =
    (Text "Upcoming holiday is Ugadi on 19-Mar-26 (Thursday).", None)
  /\ Sample.strptime (date Sample.christmas) =
    Some (DateTime.midnight (DateTime.day_number Sample.christmas_morning))
  /\ Sample.route None Sample.christmas_morning "upcoming holiday" =
    (Text "Information not available.", None).
Proof. repeat split; vm_compute; reflexivity. Qed.

(** A negative threshold is not read as a number: the minus sign stands
    between the comparison and the digits, the pattern does not match, and
    the answer is not the count of the three salaries above -1. *)
Lemma negative_threshold_is_not_counted :
  List.length (filter (fun e => (-1 <? Salary e)%Z) Sample.employees) = 3 /\
  Sample.route None Sample.today ("salary greater than " ++ Str.of_Z (-1)) =
    (Text "Information not available.", None) /\
  fst (Sample.route None Sample.today ("salary greater than " ++ Str.of_Z (-1)))
    <> Text (Str.of_nat
               (List.length
                  (filter (fun e => (-1 <? Salary e)%Z) Sample.employees))
             ++ " employees match the salary condition.").
Proof. repeat split; vm_compute; try reflexivity. discriminate. Qed.

(** Two of the three sample salaries are above 60000 and one is below. *)
Lemma salary_threshold_answers_witness :
  Sample.route None Sample.today "salary greater than 60000" =
    (Text "2 employees match the salary condition.", None)
  /\ Sample.route None Sample.today "salary less than 60000" =
    (Text "1 employees match the salary condition.", None)
  /\ Sample.route None Sample.today "list salary greater than 60000" =
    (Text ("Employees matching salary condition:" ++ Str.nl
           ++ "Ravi Kumar - 98000" ++ Str.nl ++ "Meena Iyer - 75000"), None)
  /\ Sample.route None Sample.today "list salary less than 60000" =
    (Text ("Employees matching salary condition:" ++ Str.nl
           ++ "Asha Rao - 52000"), None).
Proof.
  assert (HT : within_digit_limit (String.length (Str.of_N 60000))).
  { apply N.leb_le. reflexivity. }
  pose proof (salary_threshold_answers
                Sample.employees Sample.holidays Sample.strptime
                Sample.similarity_search None Sample.today 60000%N HT) as H.
  cbv zeta in H. destruct H as (H1 & H2 & H3 & H4 & _).
  split; [exact H1 | split; [exact H2 | split; [exact H3 | exact H4]]].
Defined.

(** A threshold of 4301 digits: [int] gives up on it, and the call ends in
    an exception. *)
Lemma threshold_of_4301_digits_raises :
  String.length Sample.long_numeral = 4301 /\
  Sample.route None Sample.today ("salary greater than " ++ Sample.long_numeral) =
  (Raised, None).
Proof.
  split; [vm_compute; reflexivity|].
  apply threshold_beyond_limit_raises.
  - discriminate.
  - vm_compute; reflexivity.
  - intros H. apply N.leb_le in H. vm_compute in H. discriminate.
Qed.

(** Asha by name, then Ravi by ID, then a pronoun: the answer is Ravi's.
    The same question after calls that resolve nobody: no answer. *)
Lemma pronoun_follows_last_resolution_witness :
  (let calls := [(Sample.today, "Who is Asha Rao?");
                 (Sample.today, "details of 102")] in
   run Sample.employees Sample.holidays Sample.strptime
     Sample.similarity_search None calls = Some Sample.ravi /\
   Sample.route
     (run Sample.employees Sample.holidays Sample.strptime
        Sample.similarity_search None calls)
     Sample.today "What is his salary?" =
   (Text "Ravi Kumar's salary is 98000.", Some Sample.ravi))
  /\
  (let calls := [(Sample.today, "how many holidays?");
                 (Sample.today, "details of 999")] in
   run Sample.employees Sample.holidays Sample.strptime
     Sample.similarity_search None calls = None /\
   Sample.route
     (run Sample.employees Sample.holidays Sample.strptime
        Sample.similarity_search None calls)
     Sample.today "What is his salary?" =
   (Text "Information not available.", None)).
Proof.
  split; intros calls.
  - destruct (pronoun_follows_last_resolution
                Sample.employees Sample.holidays Sample.strptime
                Sample.similarity_search calls Sample.today
                "What is his salary?") as [E H].
    + reflexivity.
    + reflexivity.
    + split; [exact E | exact H].
  - destruct (pronoun_follows_last_resolution
                Sample.employees Sample.holidays Sample.strptime
                Sample.similarity_search calls Sample.today
                "What is his salary?") as [E [_ H]].
    + reflexivity.
    + reflexivity.
    + split; [exact E | apply H; reflexivity].
Defined.

Lemma employee_count_is_strict_witness :
  Sample.route None Sample.today "  How many EMPLOYEES? " =
    (Text "There are 3 employees.", None) /\
  Sample.route None Sample.today "how many employees are there in total" =
    from_id Sample.employees Sample.similarity_search None
      "how many employees are there in total"
      (normalize "how many employees are there in total").
Proof.
  destruct (employee_count_is_strict
              Sample.employees Sample.holidays Sample.strptime
              Sample.similarity_search) as (_ & H2 & H3 & _).
  split.
  - apply (H2 None Sample.today "  How many EMPLOYEES? ").
    + right. reflexivity.
    + reflexivity.
  - apply (H3 None Sample.today "how many employees are there in total").
    + reflexivity.
    + reflexivity.
    + discriminate.
    + discriminate.
Defined.

(** A name that ends with a bracket is not found as a whole word when a
    blank follows it, nor one that begins with a bracket at the head of
    the question; and of two holidays of one name the later is never the
    answer. *)
Lemma named_holiday_round_trip_fails :
  (let route := retrieve_context Sample.employees [Sample.bakrid]
                  Sample.strptime Sample.similarity_search in
   route None Sample.today (occasion Sample.bakrid ++ " date?") =
     (Text "Information not available.", None) /\
   Str.contains (date Sample.bakrid) "Information not available." = false)
  /\
  (let route := retrieve_context Sample.employees [Sample.optional_holi]
                  Sample.strptime Sample.similarity_search in
   route None Sample.today (occasion Sample.optional_holi ++ " date?") =
     (Text "Information not available.", None) /\
   Str.contains (date Sample.optional_holi) "Information not available." = false)
  /\
  (let route := retrieve_context Sample.employees
                  [Sample.eid_in_march; Sample.eid_in_may]
                  Sample.strptime Sample.similarity_search in
   route None Sample.today (occasion Sample.eid_in_may ++ " date?") =
     (Text "Eid is on 21-Mar-26 (Saturday).", None) /\
   Str.contains (date Sample.eid_in_may) "Eid is on 21-Mar-26 (Saturday)." = false /\
   Str.contains (day Sample.eid_in_may) "Eid is on 21-Mar-26 (Saturday)." = false).
Proof. repeat split; reflexivity. Qed.

Lemma named_holiday_round_trip_witness :
  Sample.route None Sample.today "Gudi Padwa date?" =
    (Text "Gudi Padwa is on 19-Mar-26 (Thursday).", None)
  /\ Str.contains "19-Mar-26" "Gudi Padwa is on 19-Mar-26 (Thursday)." = true
  /\ Str.contains "Thursday" "Gudi Padwa is on 19-Mar-26 (Thursday)." = true.
Proof.
  apply (named_holiday_round_trip
           Sample.employees Sample.holidays Sample.strptime
           Sample.similarity_search None Sample.today Sample.gudi_padwa
           [Sample.christmas; Sample.republic_day; Sample.ugadi]
           [Sample.independence_day; Sample.holi]); reflexivity.
Defined.

(** "manager" has "age" in it: the question has "salary" and "email" and
    gets the age sentence. *)
Lemma salary_and_email_can_yield_age :
  let q := "what is the salary and email of the manager" in
  Str.contains "salary" q = true /\ Str.contains "email" q = true /\
  employee_field_response Sample.ravi q = "Ravi Kumar is 41 years old." /\
  employee_field_response Sample.ravi q <>
    Emp_Name Sample.ravi ++ "'s salary is " ++ Str.of_Z (Salary Sample.ravi) ++ ".".
Proof. repeat split; vm_compute; try reflexivity. discriminate. Qed.

Lemma field_response_first_keyword_witness :
  employee_field_response Sample.ravi "salary and email of ravi kumar" =
    "Ravi Kumar's salary is 98000."
  /\ employee_field_response Sample.ravi "ravi kumar" =
    "Information not available.".
Proof.
  destruct (field_response_first_keyword Sample.ravi
              "salary and email of ravi kumar") as (_ & H & _).
  destruct (field_response_first_keyword Sample.ravi "ravi kumar")
    as (_ & _ & H').
  split.
  - apply H; reflexivity.
  - apply H'; reflexivity.
Defined.

(** "the" has "he" in it. *)
Lemma pronoun_is_substring_test_witness :
  Sample.route (Some Sample.ravi) Sample.today "What is THE salary?" =
  (Text "Ravi Kumar's salary is 98000.", Some Sample.ravi).
Proof.
  apply (pronoun_is_substring_test
           Sample.employees Sample.holidays Sample.strptime
           Sample.similarity_search Sample.ravi Sample.today
           "What is THE salary?" "he" "what is t" " salary?").
  - simpl. auto.
  - reflexivity.
  - reflexivity.
Defined.

Lemma case_and_outer_blanks_do_not_matter_witness :
  normalize "  HOW MANY Holidays? " = normalize "how many holidays?" /\
  Sample.route None Sample.today "  HOW MANY Holidays? " =
  Sample.route None Sample.today "how many holidays?".
Proof.
  apply (case_and_outer_blanks_do_not_matter
           Sample.employees Sample.holidays Sample.strptime
           Sample.similarity_search None Sample.today
           "  HOW MANY Holidays? " "how many holidays?").
  exists "  ", "HOW MANY Holidays?", " ", "", "how many holidays?", "".
  repeat (split; [reflexivity|]).
  repeat (constructor;
          [first [left; reflexivity | right; right; reflexivity]|]).
  constructor.
Defined.

(** * More of the router *)

(** ** More on strings *)

Module StrMore.

Lemma contains_app_l p a b :
  Str.contains p a = true -> Str.contains p (a ++ b) = true.
Proof.
  intros H. apply StrFacts.contains_sound in H. destruct H as (x & y & ->).
  rewrite !StrFacts.app_assoc. apply StrFacts.contains_mid.
Qed.

Lemma contains_app_r p a b :
  Str.contains p b = true -> Str.contains p (a ++ b) = true.
Proof.
  intros H. apply StrFacts.contains_sound in H. destruct H as (x & y & ->).
  rewrite <- StrFacts.app_assoc. apply StrFacts.contains_mid.
Qed.

(** What is found in the stripped string is found in the string. *)
Lemma contains_of_strip p s :
  Str.contains p (Str.strip s) = true -> Str.contains p s = true.
Proof.
  intros H. unfold Str.strip in H.
  destruct (StrFacts.lstrip_suffix s) as (a & Ea).
  destruct (StrFacts.rstrip_prefix (Str.lstrip s)) as (b & Eb).
  rewrite Ea, Eb. apply contains_app_r, contains_app_l, H.
Qed.

Lemma length_lstrip : forall s, String.length (Str.lstrip s) <= String.length s.
Proof.
  induction s as [|x s IH]; simpl; [lia|].
  destruct (Char.isspace x); simpl; lia.
Qed.

Lemma length_rstrip : forall s, String.length (Str.rstrip s) <= String.length s.
Proof.
  induction s as [|x s IH]; simpl; [lia|].
  destruct (Char.isspace x && Str.is_empty (Str.rstrip s)); simpl; lia.
Qed.

Lemma app_nonempty_r a b : Str.is_empty b = false -> Str.is_empty (a ++ b) = false.
Proof. destruct a; simpl; auto. Qed.

Lemma app_nonempty_l a b : Str.is_empty a = false -> Str.is_empty (a ++ b) = false.
Proof. intros H. destruct a; [discriminate | reflexivity]. Qed.

Lemma app_empty_end (a : string) : a ++ "" = a.
Proof. induction a as [|x a IH]; simpl; [reflexivity | now rewrite IH]. Qed.

(** [rstrip] of a concatenation: the blanks at the end of [b] go, and if
    nothing of [b] is left, those at the end of [a] as well. *)
Lemma rstrip_app : forall a b,
  Str.rstrip (a ++ b) =
  if Str.is_empty (Str.rstrip b) then Str.rstrip a else a ++ Str.rstrip b.
Proof.
  induction a as [|x a IH]; intros b; simpl.
  - now destruct (Str.rstrip b).
  - rewrite IH. destruct (Str.is_empty (Str.rstrip b)) eqn:E; [reflexivity|].
    now rewrite (app_nonempty_r a _ E), andb_false_r.
Qed.

(** A non-empty text without blanks around it begins with a non-blank
    and is its own [rstrip]. *)
Lemma stripped_ends c p :
  Str.strip (String c p) = String c p ->
  Char.isspace c = false /\ Str.rstrip (String c p) = String c p.
Proof.
  intros H. unfold Str.strip in H.
  assert (Hc : Char.isspace c = false).
  { destruct (Char.isspace c) eqn:E; [|reflexivity].
    simpl Str.lstrip in H. rewrite E in H.
    pose proof (length_rstrip (Str.lstrip p)) as H1.
    pose proof (length_lstrip p) as H2.
    rewrite H in H1. simpl in H1. lia. }
  split; [assumption|]. simpl Str.lstrip in H. now rewrite Hc in H.
Qed.

(** A text without blanks around it that occurs in a string still occurs
    in it after [strip]; blanks inside the text do not matter. *)
Lemma contains_strip_stripped p s :
  Str.strip p = p ->
  Str.contains p s = true -> Str.contains p (Str.strip s) = true.
Proof.
  intros Hp H. destruct p as [|c p].
  - apply StrFacts.contains_here. reflexivity.
  - destruct (stripped_ends c p Hp) as [Hc Hr].
    apply StrFacts.contains_sound in H. destruct H as (before & after & ->).
    unfold Str.strip.
    destruct (StrFacts.lstrip_keeps c p after before Hc) as (before' & ->).
    assert (E : exists after', Str.rstrip (String c p ++ after) = String c p ++ after').
    { rewrite rstrip_app. destruct (Str.is_empty (Str.rstrip after)).
      - exists "". now rewrite Hr, app_empty_end.
      - now exists (Str.rstrip after). }
    destruct E as (after' & E).
    rewrite rstrip_app, E.
    rewrite (app_nonempty_l (String c p) after' eq_refl).
    apply StrFacts.contains_mid.
Qed.

End StrMore.

(** ** Holiday count and holiday list *)

Section HolidayBlocks.

Variable employee_df : list Employee.
Variable holidays : list Holiday.
Variable strptime : string -> option datetime.
Variable similarity_search : string -> nat -> list string.

Local Abbreviation route :=
  (retrieve_context employee_df holidays strptime similarity_search).

(** Without the word "salary" the salary block falls through. *)
Lemma salary_filter_wants_salary question :
  Str.contains "salary" (Str.lower question) = false ->
  salary_filter employee_df (normalize question) = Fallthrough.
Proof.
  intros H. unfold salary_filter.
  destruct (Re.salary_search (normalize question)) as [[c ds]|]; [|reflexivity].
  destruct (Str.contains "salary" (normalize question)) eqn:E; [|reflexivity].
  apply StrMore.contains_of_strip in E. congruence.
Qed.

Lemma normalize_lacks p question :
  Str.contains p (Str.lower question) = false ->
  Str.contains p (normalize question) = false.
Proof.
  intros H. destruct (Str.contains p (normalize question)) eqn:E; [|reflexivity].
  apply StrMore.contains_of_strip in E. congruence.
Qed.

Lemma normalize_has p question :
  Str.strip p = p ->
  Str.contains p (Str.lower question) = true ->
  Str.contains p (normalize question) = true.
Proof. intros Hp H. now apply StrMore.contains_strip_stripped. Qed.

Lemma normalize_has_any ws question :
  Forall (fun w => Str.strip w = w) ws ->
  Str.contains_any ws (Str.lower question) = true ->
  Str.contains_any ws (normalize question) = true.
Proof.
  intros Hws H. unfold Str.contains_any in *.
  apply existsb_exists in H. destruct H as (w & Hin & Hw).
  apply existsb_exists. exists w. split; [assumption|].
  apply normalize_has; [|assumption].
  rewrite Forall_forall in Hws. now apply Hws.
Qed.

(** A question that has "holiday" and "how many" in it, in any letter
    case, and not "salary", is answered with the number of loaded holidays,
    whatever else it says, and the pointer stays as it is.  The year in the
    sentence is fixed text. *)
Theorem holiday_count_answers last_employee today question :
  Str.contains "holiday" (Str.lower question) = true ->
  Str.contains "how many" (Str.lower question) = true ->
  Str.contains "salary" (Str.lower question) = false ->
  route last_employee today question =
  (Text ("There are " ++ Str.of_nat (List.length holidays)
           ++ " holidays in 2026."), last_employee).
Proof.
  intros Hh Hm Hs. unfold retrieve_context, from_count_holidays, count_holidays.
  rewrite (salary_filter_wants_salary question Hs).
  rewrite (normalize_has "holiday" question eq_refl Hh).
  now rewrite (normalize_has "how many" question eq_refl Hm).
Qed.

(** A question that has "holiday" and one of "list", "show", "what" in
    it, and neither "how many" nor "salary", is answered with every loaded
    holiday, one "Occasion - Date (Day)" line each, in load order.  It does
    not matter what else the question says: "what is the upcoming holiday"
    gets the whole list, since this block comes before the upcoming one; and
    the answer depends neither on the clock nor on the dates being
    well-formed. *)
Theorem holiday_list_answers last_employee today question :
  Str.contains "holiday" (Str.lower question) = true ->
  Str.contains_any ["list"; "show"; "what"] (Str.lower question) = true ->
  Str.contains "how many" (Str.lower question) = false ->
  Str.contains "salary" (Str.lower question) = false ->
  route last_employee today question =
  (Text ("Here are the company holidays:" ++ Str.nl
         ++ Str.join Str.nl
              (map (fun h => occasion h ++ " - " ++ date h ++ " (" ++ day h ++ ")")
                 holidays)), last_employee).
Proof.
  intros Hh Hl Hm Hs.
  unfold retrieve_context, from_count_holidays, count_holidays,
    from_list_holidays, list_holidays.
  rewrite (salary_filter_wants_salary question Hs).
  rewrite (normalize_has "holiday" question eq_refl Hh).
  rewrite (normalize_lacks "how many" question Hm).
  rewrite (normalize_has_any ["list"; "show"; "what"] question); [reflexivity| |assumption].
  repeat constructor.
Qed.

End HolidayBlocks.

Lemma holiday_count_answers_witness :
  Sample.route (Some Sample.asha) Sample.today
    "  How many HOLIDAYS do we get? List them " =
  (Text "There are 6 holidays in 2026.", Some Sample.asha).
Proof.
  apply (holiday_count_answers Sample.employees Sample.holidays
           Sample.strptime Sample.similarity_search); reflexivity.
Defined.

Lemma holiday_list_answers_witness :
  Sample.route None Sample.today "What is the upcoming holiday?" =
  (Text ("Here are the company holidays:" ++ Str.nl
         ++ Str.join Str.nl
              (map (fun h => occasion h ++ " - " ++ date h ++ " (" ++ day h ++ ")")
                 Sample.holidays)), None).
Proof.
  apply (holiday_list_answers Sample.employees Sample.holidays
           Sample.strptime Sample.similarity_search); reflexivity.
Defined.

(** ** What a call consults *)

(** The similarity search is consulted on the policy path alone: a call
    that does not reach the policy block, or reaches it with a question
    that has no policy word, gives the same result and the same pointer
    whatever the index holds.  With the pointer set, this is every question
    with "he", "his", "her", "him" or "she" in it, "the" and "there"
    included. *)
Theorem search_consulted_on_policy_path_only
    employee_df holidays strptime (search1 search2 : string -> nat -> list string)
    last_employee today question :
  reaches_policy employee_df holidays strptime last_employee today
    (normalize question)
  && Str.contains_any policy_words (normalize question) = false ->
  retrieve_context employee_df holidays strptime search1
    last_employee today question =
  retrieve_context employee_df holidays strptime search2
    last_employee today question.
Proof.
  unfold reaches_policy, reaches_pronoun, reaches_id, reaches_specific_holiday,
    pronoun_fires.
  unfold retrieve_context, from_count_holidays, from_list_holidays,
    from_upcoming, from_specific_holiday, from_employee_count, from_id,
    from_name, from_pronoun, from_policy.
  set (pro := Str.contains_any pronouns (normalize question)).
  set (pol := Str.contains_any policy_words (normalize question)).
  destruct (salary_filter _ _); try reflexivity.
  destruct (count_holidays _ _); try reflexivity.
  destruct (list_holidays _ _); try reflexivity.
  destruct (upcoming_holiday _ _ _ _); try reflexivity.
  destruct (specific_holiday _ _); try reflexivity.
  destruct (employee_count _ _); try reflexivity.
  destruct (id_match _ _); try reflexivity.
  destruct (name_match _ _); try reflexivity.
  destruct last_employee; destruct pro; destruct pol; cbn;
    try reflexivity; discriminate.
Qed.

Lemma search_consulted_on_policy_path_only_witness :
  retrieve_context Sample.employees Sample.holidays Sample.strptime
    Sample.similarity_search (Some Sample.asha) Sample.today
    "What is the leave policy?" =
  retrieve_context Sample.employees Sample.holidays Sample.strptime
    (fun _ _ => []) (Some Sample.asha) Sample.today
    "What is the leave policy?".
Proof.
  apply search_consulted_on_policy_path_only. reflexivity.
Defined.

(** The clock and the holiday dates are consulted for the upcoming holiday
    alone: a question that lacks "upcoming" or lacks "holiday" gets the same
    result and pointer at any instant and however the dates read, malformed
    dates included. *)
Theorem clock_consulted_for_upcoming_only
    employee_df holidays (strptime1 strptime2 : string -> option datetime)
    similarity_search last_employee (today1 today2 : datetime) question :
  Str.contains "upcoming" (Str.lower question) = false \/
  Str.contains "holiday" (Str.lower question) = false ->
  retrieve_context employee_df holidays strptime1 similarity_search
    last_employee today1 question =
  retrieve_context employee_df holidays strptime2 similarity_search
    last_employee today2 question.
Proof.
  intros H.
  assert (E : Str.contains "upcoming" (normalize question)
              && Str.contains "holiday" (normalize question) = false).
  { destruct H as [H|H]; apply normalize_lacks in H; rewrite H;
      [reflexivity | apply andb_false_r]. }
  unfold retrieve_context, from_count_holidays, from_list_holidays,
    from_upcoming, upcoming_holiday.
  now rewrite E.
Qed.

Lemma clock_consulted_for_upcoming_only_witness :
  retrieve_context Sample.employees Sample.holidays Sample.strptime
    Sample.similarity_search None Sample.today "Diwali holiday date?" =
  retrieve_context Sample.employees Sample.holidays (fun _ => None)
    Sample.similarity_search None Sample.christmas_morning
    "Diwali holiday date?".
Proof.
  apply clock_consulted_for_upcoming_only. left. reflexivity.
Defined.

Section Outcomes.

Variable employee_df : list Employee.
Variable holidays : list Holiday.
Variable strptime : string -> option datetime.
Variable similarity_search : string -> nat -> list string.

Local Abbreviation route :=
  (retrieve_context employee_df holidays strptime similarity_search).
Local Abbreviation reaches_pol := (reaches_policy employee_df holidays strptime).

(** [None] comes from the policy block and from nowhere else: the call
    returns [None] exactly when the question reaches the policy block, has
    a policy word in it, and the passages found, joined by newlines, make
    the empty string (no passage, or one empty passage). *)
Theorem none_only_from_empty_context last_employee today question :
  fst (route last_employee today question) = NoneValue <->
  reaches_pol last_employee today (normalize question) = true /\
  Str.contains_any policy_words (normalize question) = true /\
  Str.join Str.nl (similarity_search question 2) = "".
Proof.
  split.
  - unfold reaches_policy, reaches_pronoun, reaches_id,
      reaches_specific_holiday, pronoun_fires.
    unfold retrieve_context, from_count_holidays, from_list_holidays,
      from_upcoming, from_specific_holiday, from_employee_count, from_id,
      from_name, from_pronoun, from_policy, rag.
    set (pro := Str.contains_any pronouns (normalize question)).
    set (pol := Str.contains_any policy_words (normalize question)).
    destruct (salary_filter _ _); try discriminate.
    destruct (count_holidays _ _); try discriminate.
    destruct (list_holidays _ _); try discriminate.
    destruct (upcoming_holiday _ _ _ _); try discriminate.
    destruct (specific_holiday _ _); try discriminate.
    destruct (employee_count _ _); try discriminate.
    destruct (id_match _ _); try discriminate.
    destruct (name_match _ _); try discriminate.
    destruct last_employee; destruct pro; destruct pol; cbn;
      try discriminate;
      destruct (Str.join Str.nl (similarity_search question 2));
      cbn; try discriminate; auto.
  - intros (Hr & Hp & He). rewrite route_from_policy by assumption.
    unfold from_policy, rag. now rewrite Hp, He.
Qed.

(** One holiday date that [strptime] rejects makes every upcoming-holiday
    question end in an exception, wherever the holiday stands in the list
    and whatever the other dates are; the pointer is left as it was. *)
Lemma upcoming_scan_raises today h : forall hs upcoming upcoming_date,
  In h hs -> strptime (date h) = None ->
  upcoming_scan strptime today hs upcoming upcoming_date = None.
Proof.
  induction hs as [|h' hs IH]; intros up ud Hin Hbad; [contradiction|].
  simpl. destruct Hin as [->|Hin]; [now rewrite Hbad|].
  destruct (strptime (date h')) as [d|]; [|reflexivity].
  destruct (DateTime.leb today d); [|now apply IH].
  destruct ud as [best|]; [|now apply IH].
  destruct (DateTime.ltb d best); now apply IH.
Qed.

Lemma normalize_lacks_any ws question :
  Str.contains_any ws (Str.lower question) = false ->
  Str.contains_any ws (normalize question) = false.
Proof.
  unfold Str.contains_any. induction ws as [|w ws IH]; simpl; [reflexivity|].
  intros H. apply orb_false_iff in H. destruct H as [Hw Hws].
  now rewrite (normalize_lacks w question Hw), IH.
Qed.

(** One malformed date spoils the upcoming-holiday block for every
    holiday: the scan parses each date before it compares, so a single
    holiday whose date the parser rejects, wherever it stands in the list,
    makes every question with "upcoming" and "holiday" in it that comes to
    this block (no "salary", no "how many", none of "list", "show", "what")
    end in an exception, well-formed later holidays or not.  The pointer
    stays as it was. *)
Theorem malformed_date_breaks_upcoming last_employee today question h :
  In h holidays -> strptime (date h) = None ->
  Str.contains "upcoming" (Str.lower question) = true ->
  Str.contains "holiday" (Str.lower question) = true ->
  Str.contains "how many" (Str.lower question) = false ->
  Str.contains_any ["list"; "show"; "what"] (Str.lower question) = false ->
  Str.contains "salary" (Str.lower question) = false ->
  route last_employee today question = (Raised, last_employee).
Proof.
  intros Hin Hbad Hup Hhol Hmany Hlist Hsal.
  unfold retrieve_context, from_count_holidays, count_holidays,
    from_list_holidays, list_holidays, from_upcoming, upcoming_holiday.
  rewrite (salary_filter_wants_salary employee_df question Hsal).
  rewrite (normalize_has "holiday" question eq_refl Hhol).
  rewrite (normalize_has "upcoming" question eq_refl Hup).
  rewrite (normalize_lacks "how many" question Hmany).
  rewrite (normalize_lacks_any _ question Hlist).
  cbn [andb]. now rewrite (upcoming_scan_raises today h holidays None None Hin Hbad).
Qed.

End Outcomes.

Lemma none_only_from_empty_context_witness :
  fst (Sample.route None Sample.today "attendance policy") = NoneValue.
Proof.
  apply (none_only_from_empty_context Sample.employees Sample.holidays
           Sample.strptime Sample.similarity_search).
  repeat split.
Defined.

Lemma malformed_date_breaks_upcoming_witness :
  let bad := mkHoliday "Founders Day" "31st March" "Tuesday" in
  retrieve_context Sample.employees (Sample.holidays ++ [bad])%list
    Sample.strptime Sample.similarity_search (Some Sample.ravi) Sample.today
    "Upcoming holiday?" = (Raised, Some Sample.ravi).
Proof.
  intros bad.
  apply (malformed_date_breaks_upcoming Sample.employees
           (Sample.holidays ++ [bad])%list Sample.strptime
           Sample.similarity_search (Some Sample.ravi) Sample.today
           "Upcoming holiday?" bad); try reflexivity.
  apply in_or_app. right. now left.
Defined.

(** ** Looking up an employee *)

Module LookupFacts.

Lemma find_none_iff {A} (f : A -> bool) l :
  find f l = None <-> Forall (fun x => f x = false) l.
Proof.
  induction l as [|x l IH]; simpl.
  - split; [constructor | reflexivity].
  - destruct (f x) eqn:E.
    + split; [discriminate|]. intros H. inversion H; congruence.
    + rewrite IH. split; [now constructor | now inversion 1].
Qed.

Lemma find_some_iff {A} (f : A -> bool) l x :
  find f l = Some x <->
  exists l1 l2, l = (l1 ++ x :: l2)%list /\ f x = true /\
                Forall (fun y => f y = false) l1.
Proof.
  split.
  - induction l as [|y l IH]; simpl; [discriminate|].
    destruct (f y) eqn:E.
    + intros [= ->]. exists [], l. auto.
    + intros H. destruct (IH H) as (l1 & l2 & -> & Hx & Hl1).
      exists (y :: l1), l2. auto.
  - intros (l1 & l2 & -> & Hx & Hl1).
    induction Hl1 as [|y l1 Hy _ IH]; simpl; [now rewrite Hx | now rewrite Hy].
Qed.

Lemma lstrip_lower : forall s, Str.lstrip (Str.lower s) = Str.lower (Str.lstrip s).
Proof.
  induction s as [|x s IH]; simpl; [reflexivity|].
  rewrite CharFacts.isspace_lower. now destruct (Char.isspace x).
Qed.

Lemma rstrip_lower : forall s, Str.rstrip (Str.lower s) = Str.lower (Str.rstrip s).
Proof.
  induction s as [|x s IH]; simpl; [reflexivity|].
  rewrite CharFacts.isspace_lower, IH.
  replace (Str.is_empty (Str.lower (Str.rstrip s)))
    with (Str.is_empty (Str.rstrip s)) by now destruct (Str.rstrip s).
  now destruct (Char.isspace x && Str.is_empty (Str.rstrip s)).
Qed.

(** Lower-casing and stripping can be done in either order. *)
Lemma strip_lower s : Str.strip (Str.lower s) = Str.lower (Str.strip s).
Proof. unfold Str.strip. now rewrite lstrip_lower, rstrip_lower. Qed.

End LookupFacts.

Section Lookups.

Variable employee_df : list Employee.
Variable holidays : list Holiday.
Variable strptime : string -> option datetime.
Variable similarity_search : string -> nat -> list string.

Local Abbreviation route :=
  (retrieve_context employee_df holidays strptime similarity_search).
Local Abbreviation reaches_ids := (reaches_id employee_df holidays strptime).

Lemma by_id_unknown n :
  (forall e, In e employee_df -> Emp_ID e <> n) -> by_id employee_df n = None.
Proof.
  intros H. apply LookupFacts.find_none_iff, Forall_forall.
  intros e He. apply Z.eqb_neq. now apply H.
Qed.


(** The ID scan passes over the words that are no known ID. *)
Lemma id_scan_skips rest : forall pre,
  Forall (not_a_known_id employee_df) pre ->
  id_scan employee_df (pre ++ rest)%list = id_scan employee_df rest.
Proof.
  induction pre as [|w pre IH]; intros H; [reflexivity|].
  inversion H as [|? ? Hw Hpre]; subst. simpl.
  destruct Hw as [Hw | (m & Hm & Hno)].
  - rewrite Hw. now apply IH.
  - rewrite Hm, (by_id_unknown _ Hno).
    destruct (Str.isdigit w); now apply IH.
Qed.

Lemma id_match_falls q :
  Forall (not_a_known_id employee_df) (Str.split q) ->
  id_match employee_df q = Fallthrough.
Proof.
  intros H. unfold id_match.
  rewrite <- (app_nil_r (Str.split q)). now rewrite id_scan_skips.
Qed.


(** The name block answers for the first employee, in table order, whose
    name occurs in the question, in any letter case: a question that
    reaches the ID block, has no known ID among its words and has the name
    of [emp] in it is answered about [emp], and the pointer is set to
    [emp], unless the name of an employee earlier in the table also occurs
    in it.  The name is taken to have no blanks around it. *)
Theorem name_lookup_first_in_table
    last_employee today question before name after rows1 emp rows2 :
  reaches_ids today (normalize question) = true ->
  Forall (not_a_known_id employee_df) (Str.split (normalize question)) ->
  question = before ++ name ++ after ->
  same_letters name (Emp_Name emp) ->
  Str.strip (Emp_Name emp) = Emp_Name emp ->
  employee_df = (rows1 ++ emp :: rows2)%list ->
  Forall (fun e => Str.contains (Str.lower (Emp_Name e)) (normalize question)
                   = false) rows1 ->
  route last_employee today question =
  (Text (employee_field_response emp (normalize question)), Some emp).
Proof.
  intros Hr Hids Hq Hname Hstrip Hdf Hrows.
  rewrite route_from_id by assumption.
  unfold from_id. rewrite (id_match_falls _ Hids).
  unfold from_name, name_match.
  assert (Hfound : Str.contains (Str.lower (Emp_Name emp)) (normalize question)
                   = true).
  { apply StrMore.contains_strip_stripped.
    - now rewrite LookupFacts.strip_lower, Hstrip.
    - rewrite Hq, !StrFacts.lower_app, (same_letters_lower _ _ Hname).
      apply StrFacts.contains_mid. }
  replace (find _ employee_df) with (Some emp); [reflexivity|].
  symmetry. apply LookupFacts.find_some_iff. now exists rows1, rows2.
Qed.

End Lookups.


Lemma name_lookup_first_in_table_witness :
  Sample.route None Sample.today "Email of MEENA iyer and Ravi Kumar (id 103?)" =
  (Text "Ravi Kumar's email is ravi.kumar@example.com.", Some Sample.ravi).
Proof.
  apply (name_lookup_first_in_table
           Sample.employees Sample.holidays Sample.strptime
           Sample.similarity_search None Sample.today
           "Email of MEENA iyer and Ravi Kumar (id 103?)"
           "Email of MEENA iyer and " "Ravi Kumar" " (id 103?)"
           [Sample.asha] Sample.ravi [Sample.meena]).
  - vm_compute; reflexivity.
  - assert (E : Str.split
                  (normalize "Email of MEENA iyer and Ravi Kumar (id 103?)") =
                ["email"; "of"; "meena"; "iyer"; "and"; "ravi"; "kumar";
                 "(id"; "103?)"]) by (vm_compute; reflexivity).
    rewrite E.
    repeat (apply Forall_cons; [left; vm_compute; reflexivity|]).
    apply Forall_nil.
  - reflexivity.
  - repeat (constructor; [left; reflexivity|]). constructor.
  - reflexivity.
  - reflexivity.
  - repeat (apply Forall_cons; [vm_compute; reflexivity|]). apply Forall_nil.
Defined.

(** ** Naming a holiday *)

Module WordFacts.

Lemma word_at_iff lit before s :
  Re.word_at lit before s = true <->
  exists b, s = lit ++ b /\
    Re.boundary before (Re.head_isword (lit ++ b)) = true /\
    Re.boundary (Re.last_isword before lit) (Re.head_isword b) = true.
Proof.
  unfold Re.word_at. split.
  - intros H. apply andb_true_iff in H. destruct H as [H1 H2].
    destruct (Str.strip_prefix lit s) as [rest|] eqn:E; [|discriminate].
    apply StrFacts.strip_prefix_sound in E. subst s. now exists rest.
  - intros (b & -> & H1 & H2).
    now rewrite H1, StrFacts.strip_prefix_app, H2.
Qed.

Lemma last_isword_app : forall a before lit,
  Re.last_isword before (a ++ lit) = Re.last_isword (Re.last_isword before a) lit.
Proof. induction a as [|x a IH]; simpl; intros; [reflexivity | apply IH]. Qed.

Lemma word_search_from_iff lit : forall s before,
  Re.word_search_from lit before s = true <->
  exists a b, s = a ++ lit ++ b /\
    Re.boundary (Re.last_isword before a) (Re.head_isword (lit ++ b)) = true /\
    Re.boundary (Re.last_isword before (a ++ lit)) (Re.head_isword b) = true.
Proof.
  induction s as [|x s IH]; intros before.
  - cbn [Re.word_search_from]. rewrite orb_false_r, word_at_iff. split.
    + intros (b & E & H1 & H2). now exists "", b.
    + intros (a & b & E & H1 & H2).
      destruct a; [|discriminate]. now exists b.
  - cbn [Re.word_search_from]. rewrite orb_true_iff, word_at_iff, IH. split.
    + intros [(b & E & H1 & H2) | (a & b & E & H1 & H2)].
      * now exists "", b.
      * exists (String x a), b. simpl. now rewrite E.
    + intros (a & b & E & H1 & H2). destruct a as [|y a].
      * left. now exists b.
      * right. simpl in E. injection E as -> ->. now exists a, b.
Qed.

(** The pattern [\b lit \b] is found in [s] exactly when [lit] occurs in
    [s] as a whole word. *)
Lemma word_search_iff lit s :
  Re.word_search lit s = true <-> whole_word_in lit s.
Proof. apply word_search_from_iff. Qed.

Lemma word_search_not lit s :
  Re.word_search lit s = false <-> ~ whole_word_in lit s.
Proof.
  rewrite <- word_search_iff. destruct (Re.word_search lit s); split;
    congruence.
Qed.

End WordFacts.

Section NamedHoliday.

Variable employee_df : list Employee.
Variable holidays : list Holiday.
Variable strptime : string -> option datetime.
Variable similarity_search : string -> nat -> list string.

Local Abbreviation route :=
  (retrieve_context employee_df holidays strptime similarity_search).
Local Abbreviation reaches_named :=
  (reaches_specific_holiday employee_df holidays strptime).

(** The holiday-name block answers with the first holiday, in load order,
    whose lower-cased occasion occurs in the normalized question as a
    whole word: with a word boundary on both sides, so that "holi" is not
    found inside "holidays".  If no holiday is named in this way the block
    gives no answer and the router goes on with the employee count.  The
    pointer is not touched. *)
Theorem holiday_named_as_whole_word last_employee today question :
  reaches_named today (normalize question) = true ->
  (forall h l1 l2,
      holidays = (l1 ++ h :: l2)%list ->
      whole_word_in (Str.lower (occasion h)) (normalize question) ->
      Forall (fun h' => ~ whole_word_in (Str.lower (occasion h'))
                          (normalize question)) l1 ->
      route last_employee today question =
      (Text (occasion h ++ " is on " ++ date h ++ " (" ++ day h ++ ")."),
       last_employee))
  /\ (Forall (fun h => ~ whole_word_in (Str.lower (occasion h))
                         (normalize question)) holidays ->
      route last_employee today question =
      from_employee_count employee_df similarity_search last_employee
        question (normalize question)).
Proof.
  intros Hr. rewrite route_from_specific_holiday by assumption.
  unfold from_specific_holiday, specific_holiday. split.
  - intros h l1 l2 Hsplit Hh Hl1.
    replace (find _ holidays) with (Some h); [reflexivity|].
    symmetry. apply LookupFacts.find_some_iff. exists l1, l2.
    split; [assumption|]. split.
    + now apply WordFacts.word_search_iff.
    + eapply Forall_impl; [|exact Hl1].
      intros h' Hh'. now apply WordFacts.word_search_not.
  - intros Hnone.
    replace (find _ holidays) with (@None Holiday); [reflexivity|].
    symmetry. apply LookupFacts.find_none_iff.
    eapply Forall_impl; [|exact Hnone].
    intros h Hh. now apply WordFacts.word_search_not.
Qed.

End NamedHoliday.

Lemma holiday_named_as_whole_word_witness :
  Sample.route (Some Sample.asha) Sample.today "When is HOLI this year?" =
    (Text "Holi is on 04-Mar-26 (Wednesday).", Some Sample.asha)
  /\ Sample.route (Some Sample.asha) Sample.today "Holidays" =
     from_employee_count Sample.employees Sample.similarity_search
       (Some Sample.asha) "Holidays" (normalize "Holidays").
Proof.
  split.
  - refine (proj1 (holiday_named_as_whole_word
                     Sample.employees Sample.holidays Sample.strptime
                     Sample.similarity_search (Some Sample.asha) Sample.today
                     "When is HOLI this year?" _)
                  Sample.holi
                  [Sample.christmas; Sample.republic_day; Sample.ugadi;
                   Sample.gudi_padwa; Sample.independence_day] [] _ _ _).
    + vm_compute; reflexivity.
    + reflexivity.
    + apply WordFacts.word_search_iff. vm_compute; reflexivity.
    + repeat (apply Forall_cons;
              [apply WordFacts.word_search_not; vm_compute; reflexivity|]).
      apply Forall_nil.
  - refine (proj2 (holiday_named_as_whole_word
                     Sample.employees Sample.holidays Sample.strptime
                     Sample.similarity_search (Some Sample.asha) Sample.today
                     "Holidays" _) _).
    + vm_compute; reflexivity.
    + repeat (apply Forall_cons;
              [apply WordFacts.word_search_not; vm_compute; reflexivity|]).
      apply Forall_nil.
Defined.

(** ** More on salary thresholds *)

Section SalaryPhrasings.

Variable employee_df : list Employee.
Variable holidays : list Holiday.
Variable strptime : string -> option datetime.
Variable similarity_search : string -> nat -> list string.

Local Abbreviation route :=
  (retrieve_context employee_df holidays strptime similarity_search).

Lemma amount_after_digits ds :
  ds <> "" -> Str.all Char.isdecimal ds = true ->
  Re.amount_after ds = Some ds.
Proof.
  intros Hne Hds. unfold Re.amount_after.
  destruct ds as [|d ds]; [contradiction|].
  assert (Hd : Char.isdecimal d = true).
  { simpl in Hds. now apply andb_true_iff in Hds. }
  rewrite (IntFacts.span_none Char.isspace d ds (CharFacts.decimal_not_space d Hd)).
  cbn [snd]. now rewrite (IntFacts.span_all Char.isdecimal _ Hds).
Qed.

(** The match of the salary pattern in the other phrasings. *)
Lemma salary_search_phrasings ds :
  ds <> "" -> Str.all Char.isdecimal ds = true ->
  Re.salary_search ("salary more than " ++ ds) = Some ("more than", ds) /\
  Re.salary_search ("salary above " ++ ds) = Some ("above", ds) /\
  Re.salary_search ("salary > " ++ ds) = Some (">", ds) /\
  Re.salary_search ("salary >" ++ ds) = Some (">", ds) /\
  Re.salary_search ("salary below " ++ ds) = Some ("below", ds) /\
  Re.salary_search ("salary < " ++ ds) = Some ("<", ds) /\
  Re.salary_search ("salary <" ++ ds) = Some ("<", ds).
Proof.
  intros Hne Hds.
  pose proof (amount_after_blank ds Hne Hds) as E.
  pose proof (amount_after_digits ds Hne Hds) as E'.
  repeat split; cbn -[Re.amount_after]; rewrite ?E, ?E'; reflexivity.
Qed.

(** The comparison can be worded in several ways, with the same answer:
    for every natural number [T] of no more decimal digits than [int]
    converts, "more than", "above" and ">" (with or without a blank before
    the number) count the salaries strictly above [T] as "greater than"
    does, and "below" and "<" count those strictly below [T] as "less
    than" does. *)
Theorem salary_phrasings_agree last_employee today (T : N) :
  within_digit_limit (String.length (Str.of_N T)) ->
  let above :=
    (Text (Str.of_nat (List.length
                         (filter (fun e => (Z.of_N T <? Salary e)%Z) employee_df))
           ++ " employees match the salary condition."), last_employee) in
  let below :=
    (Text (Str.of_nat (List.length
                         (filter (fun e => (Salary e <? Z.of_N T)%Z) employee_df))
           ++ " employees match the salary condition."), last_employee) in
  route last_employee today ("salary more than " ++ Str.of_N T) = above /\
  route last_employee today ("salary above " ++ Str.of_N T) = above /\
  route last_employee today ("salary > " ++ Str.of_N T) = above /\
  route last_employee today ("salary >" ++ Str.of_N T) = above /\
  route last_employee today ("salary below " ++ Str.of_N T) = below /\
  route last_employee today ("salary < " ++ Str.of_N T) = below /\
  route last_employee today ("salary <" ++ Str.of_N T) = below.
Proof.
  intros HT above below.
  destruct (salary_search_phrasings (Str.of_N T)
              (IntFacts.of_N_nonempty T) (IntFacts.of_N_decimals T))
    as (S1 & S2 & S3 & S4 & S5 & S6 & S7).
  split; [|split; [|split; [|split; [|split; [|split]]]]].
  - now rewrite (route_threshold employee_df holidays strptime similarity_search
                   last_employee today "salary more than " "more than" T
                   eq_refl eq_refl S1 eq_refl HT).
  - now rewrite (route_threshold employee_df holidays strptime similarity_search
                   last_employee today "salary above " "above" T
                   eq_refl eq_refl S2 eq_refl HT).
  - now rewrite (route_threshold employee_df holidays strptime similarity_search
                   last_employee today "salary > " ">" T
                   eq_refl eq_refl S3 eq_refl HT).
  - now rewrite (route_threshold employee_df holidays strptime similarity_search
                   last_employee today "salary >" ">" T
                   eq_refl eq_refl S4 eq_refl HT).
  - now rewrite (route_threshold employee_df holidays strptime similarity_search
                   last_employee today "salary below " "below" T
                   eq_refl eq_refl S5 eq_refl HT).
  - now rewrite (route_threshold employee_df holidays strptime similarity_search
                   last_employee today "salary < " "<" T
                   eq_refl eq_refl S6 eq_refl HT).
  - now rewrite (route_threshold employee_df holidays strptime similarity_search
                   last_employee today "salary <" "<" T
                   eq_refl eq_refl S7 eq_refl HT).
Qed.

Lemma three_way_split (T : Z) : forall rows : list Employee,
  (List.length (filter (fun e => (T <? Salary e)%Z) rows)
   + List.length (filter (fun e => (Salary e <? T)%Z) rows)
   + List.length (filter (fun e => (Salary e =? T)%Z) rows)
   = List.length rows)%nat.
Proof.
  induction rows as [|e rows IH]; simpl; [reflexivity|].
  destruct (Z.ltb_spec T (Salary e)); destruct (Z.ltb_spec (Salary e) T);
    destruct (Z.eqb_spec (Salary e) T); simpl; lia.
Qed.

(** Both comparisons are strict: for every natural number [T] of no more
    decimal digits than [int] converts, the count given for "salary
    greater than T", the count given for "salary less than T" and the
    number of employees who earn exactly [T] add up to the number of rows
    of the table, so an employee who earns exactly [T] is counted by
    neither question. *)
Theorem salary_counts_leave_out_the_threshold last_employee today (T : N) :
  within_digit_limit (String.length (Str.of_N T)) ->
  exists above below : nat,
    route last_employee today ("salary greater than " ++ Str.of_N T) =
      (Text (Str.of_nat above ++ " employees match the salary condition."),
       last_employee) /\
    route last_employee today ("salary less than " ++ Str.of_N T) =
      (Text (Str.of_nat below ++ " employees match the salary condition."),
       last_employee) /\
    (above + below
     + List.length (filter (fun e => (Salary e =? Z.of_N T)%Z) employee_df)
     = List.length employee_df)%nat.
Proof.
  intros HT.
  destruct (salary_search_threshold (Str.of_N T)
              (IntFacts.of_N_nonempty T) (IntFacts.of_N_decimals T))
    as (S1 & S2 & _).
  exists (List.length (filter (fun e => (Z.of_N T <? Salary e)%Z) employee_df)),
         (List.length (filter (fun e => (Salary e <? Z.of_N T)%Z) employee_df)).
  split; [|split].
  - now rewrite (route_threshold employee_df holidays strptime similarity_search
                   last_employee today "salary greater than " "greater than" T
                   eq_refl eq_refl S1 eq_refl HT).
  - now rewrite (route_threshold employee_df holidays strptime similarity_search
                   last_employee today "salary less than " "less than" T
                   eq_refl eq_refl S2 eq_refl HT).
  - apply three_way_split.
Qed.

End SalaryPhrasings.

Lemma salary_phrasings_agree_witness :
  let above := (Text "2 employees match the salary condition.", None) in
  let below := (Text "1 employees match the salary condition.", None) in
  Sample.route None Sample.today "salary more than 60000" = above /\
  Sample.route None Sample.today "salary above 60000" = above /\
  Sample.route None Sample.today "salary > 60000" = above /\
  Sample.route None Sample.today "salary >60000" = above /\
  Sample.route None Sample.today "salary below 60000" = below /\
  Sample.route None Sample.today "salary < 60000" = below /\
  Sample.route None Sample.today "salary <60000" = below.
Proof.
  apply (salary_phrasings_agree
           Sample.employees Sample.holidays Sample.strptime
           Sample.similarity_search None Sample.today 60000%N).
  apply N.leb_le. reflexivity.
Defined.

(** Meena earns exactly 75000: one salary is above, one below, and the
    third is counted by neither question. *)
Lemma salary_counts_leave_out_the_threshold_witness :
  exists above below : nat,
    Sample.route None Sample.today "salary greater than 75000" =
      (Text (Str.of_nat above ++ " employees match the salary condition."),
       None) /\
    Sample.route None Sample.today "salary less than 75000" =
      (Text (Str.of_nat below ++ " employees match the salary condition."),
       None) /\
    (above + below + 1 = 3)%nat.
Proof.
  apply (salary_counts_leave_out_the_threshold
           Sample.employees Sample.holidays Sample.strptime
           Sample.similarity_search None Sample.today 75000%N).
  apply N.leb_le. reflexivity.
Defined.

(** ** The endpoint *)

Module ReplaceFacts.

(** Nothing is replaced in a string that does not contain [old]. *)
Lemma replace_absent old new : forall s,
  Str.contains old s = false -> App.replace old new s = s.
Proof.
  unfold App.replace. induction s as [|x s IH]; [reflexivity|].
  cbn [Str.contains App.replace_from]. intros H.
  apply orb_false_iff in H. destruct H as [H1 H2].
  now rewrite H1, IH.
Qed.

(** The tag at the head of a string goes, and the scan goes on behind
    it. *)
Lemma replace_tag_head s :
  App.replace "RAG::" "" ("RAG::" ++ s) = App.replace "RAG::" "" s.
Proof. reflexivity. Qed.

Lemma of_nat_head n :
  exists d rest, Str.of_nat n = String d rest /\ Char.isdecimal d = true.
Proof.
  unfold Str.of_nat, NilZero.string_of_uint.
  destruct (Nat.to_uint n) eqn:E;
    try (eexists; eexists; split; [reflexivity | reflexivity]).
Qed.

Lemma untagged_digits n rest :
  Str.startswith "RAG::" (Str.of_nat n ++ rest) = false /\
  Str.is_empty (Str.of_nat n ++ rest) = false.
Proof.
  destruct (of_nat_head n) as (d & tl & -> & Hd). split; [|reflexivity].
  unfold Str.startswith. cbn [append Str.strip_prefix].
  now rewrite (CharFacts.decimal_not_letter d "R" Hd eq_refl).
Qed.

End ReplaceFacts.

Section AskFacts.

Variable employee_df : list Employee.
Variable holidays : list Holiday.
Variable strptime : string -> option datetime.
Variable similarity_search : string -> nat -> list string.
Variable llm : string -> string.

Local Abbreviation route :=
  (retrieve_context employee_df holidays strptime similarity_search).
Local Abbreviation ask :=
  (App.ask employee_df holidays strptime similarity_search llm).
Local Abbreviation reaches_pol := (reaches_policy employee_df holidays strptime).
Local Abbreviation reaches_named :=
  (reaches_specific_holiday employee_df holidays strptime).

(** The two ways the router has of giving no answer look the same from
    the endpoint: a question that reaches the policy block gets the answer
    "Information not available." both when it has no policy word (the
    router returns that sentence) and when it has one but the passages
    found make an empty context (the router returns [None]).  The language
    model is not consulted and the pointer stays as it is. *)
Theorem ask_no_answer last_employee today question :
  reaches_pol last_employee today (normalize question) = true ->
  Str.contains_any policy_words (normalize question) = false \/
  Str.join Str.nl (similarity_search question 2) = "" ->
  ask last_employee today (Some question) =
  (Some "Information not available.", last_employee).
Proof.
  intros Hr H. unfold App.ask. rewrite route_from_policy by assumption.
  unfold from_policy, rag.
  destruct (Str.contains_any policy_words (normalize question)).
  - destruct H as [H|H]; [discriminate|]. now rewrite H.
  - reflexivity.
Qed.

(** A policy question with passages: when the question reaches the policy
    block with a policy word and the passages found, joined by newlines,
    make a non-empty context in which the tag "RAG::" does not occur, the
    model is given the prompt built from exactly that context and the
    question as it was typed, and the answer is the model's text without
    the blanks around it. *)
Theorem ask_policy_prompt last_employee today question context :
  reaches_pol last_employee today (normalize question) = true ->
  Str.contains_any policy_words (normalize question) = true ->
  Str.join Str.nl (similarity_search question 2) = context ->
  context <> "" ->
  Str.contains "RAG::" context = false ->
  ask last_employee today (Some question) =
  (Some (Str.strip (llm (App.prompt context question))), last_employee).
Proof.
  intros Hr Hp Hc Hne Hno. unfold App.ask.
  rewrite route_from_policy by assumption.
  unfold from_policy, rag. rewrite Hp, Hc.
  destruct context as [|c context]; [contradiction|].
  cbn [Str.is_empty].
  change (Str.startswith "RAG::" ("RAG::" ++ String c context)) with true.
  cbn [Str.is_empty append negb andb].
  change (String "R" (String "A" (String "G" (String ":" (String ":"
            (String c context))))))
    with ("RAG::" ++ String c context).
  now rewrite ReplaceFacts.replace_tag_head, ReplaceFacts.replace_absent.
Qed.

Lemma untagged_salary_answer q condition amount :
  let s := salary_answer employee_df q condition amount in
  Str.startswith "RAG::" s = false /\ Str.is_empty s = false.
Proof.
  unfold salary_answer. destruct (Str.contains "list" q).
  - destruct (salary_rows employee_df condition amount); split; reflexivity.
  - apply ReplaceFacts.untagged_digits.
Qed.

(** The answers of the salary block and of the three holiday blocks that
    come first pass through the endpoint unchanged: whatever the tables
    hold, the text of such an answer does not begin with the tag, so the
    endpoint returns it as it is, without consulting the language model,
    and an exception of the router is an exception of the endpoint. *)
Theorem ask_passes_first_blocks_through last_employee today question :
  reaches_named today (normalize question) = false ->
  ask last_employee today (Some question) =
  (match fst (route last_employee today question) with
   | Text s => Some s
   | NoneValue => Some "Information not available."
   | Raised => None
   end, last_employee).
Proof.
  unfold reaches_specific_holiday, App.ask.
  unfold retrieve_context, from_count_holidays, count_holidays,
    from_list_holidays, list_holidays, from_upcoming, upcoming_holiday.
  destruct (salary_filter employee_df (normalize question)) as [s| |] eqn:Es.
  - intros _. unfold salary_filter in Es.
    destruct (Re.salary_search _) as [[c ds]|]; [|discriminate].
    destruct (Str.contains "salary" _); [|discriminate].
    destruct (Str.to_int ds); [|discriminate].
    injection Es as <-.
    destruct (untagged_salary_answer (normalize question) c (Z.of_N n))
      as [H1 H2].
    cbn [fst]. now rewrite H1, H2.
  - destruct (Str.contains "holiday" (normalize question)
              && Str.contains "how many" (normalize question));
      [reflexivity|].
    destruct (Str.contains "holiday" (normalize question)
              && Str.contains_any ["list"; "show"; "what"] (normalize question));
      [reflexivity|].
    destruct (Str.contains "upcoming" (normalize question)
              && Str.contains "holiday" (normalize question));
      [|discriminate].
    destruct (upcoming_scan strptime today holidays None None) as [[h|]|];
      [reflexivity | discriminate | reflexivity].
  - reflexivity.
Qed.

End AskFacts.

Lemma ask_no_answer_witness :
  SampleApp.ask None Sample.today (Some "attendance policy") =
    (Some "Information not available.", None)
  /\ SampleApp.ask None Sample.today (Some "what is the weather today") =
    (Some "Information not available.", None).
Proof.
  split.
  - apply (ask_no_answer Sample.employees Sample.holidays Sample.strptime
             Sample.similarity_search SampleApp.llm);
      [vm_compute; reflexivity | right; reflexivity].
  - apply (ask_no_answer Sample.employees Sample.holidays Sample.strptime
             Sample.similarity_search SampleApp.llm);
      [vm_compute; reflexivity | left; vm_compute; reflexivity].
Defined.

Lemma ask_policy_prompt_witness :
  SampleApp.ask None Sample.today (Some "What is the LEAVE policy?") =
  (Some "Employees get 18 days of paid leave a year.", None).
Proof.
  apply (ask_policy_prompt Sample.employees Sample.holidays Sample.strptime
           Sample.similarity_search SampleApp.llm None Sample.today
           "What is the LEAVE policy?"
           ("Employees get 18 days of paid leave a year." ++ Str.nl
            ++ "Leave must be applied for three days ahead.")).
  - vm_compute; reflexivity.
  - vm_compute; reflexivity.
  - vm_compute; reflexivity.
  - discriminate.
  - vm_compute; reflexivity.
Defined.

Lemma ask_passes_first_blocks_through_witness :
  SampleApp.ask (Some Sample.asha) Sample.today
    (Some "list salary above 60000") =
  (Some ("Employees matching salary condition:" ++ Str.nl
         ++ "Ravi Kumar - 98000" ++ Str.nl ++ "Meena Iyer - 75000"),
   Some Sample.asha).
Proof.
  apply (ask_passes_first_blocks_through
           Sample.employees Sample.holidays Sample.strptime
           Sample.similarity_search SampleApp.llm (Some Sample.asha)
           Sample.today "list salary above 60000").
  vm_compute; reflexivity.
Defined.

(** ** A question with two comparisons *)

Module DigitFacts.

Lemma startswith_before_digit d z :
  Char.isdecimal d = true ->
  forall p a, Str.all (fun c => negb (Char.isdecimal c)) p = true ->
  Str.startswith p (a ++ String d z) = Str.startswith p a.
Proof.
  intros Hd. unfold Str.startswith.
  induction p as [|x p IH]; intros a Hp; simpl; [reflexivity|].
  apply andb_true_iff in Hp. destruct Hp as [Hx Hp].
  apply negb_true_iff in Hx.
  destruct a as [|y a]; simpl.
  - now rewrite (CharFacts.decimal_not_letter d x Hd Hx).
  - destruct (Ascii.eqb x y); [now apply IH | reflexivity].
Qed.

(** A text without digits occurs in [a ++ ds ++ b], where [ds] is a
    non-empty run of digits, exactly when it occurs in [a] or in [b]. *)
Lemma contains_around_decimals p b : forall ds,
  ds <> "" -> Str.all Char.isdecimal ds = true ->
  Str.all (fun c => negb (Char.isdecimal c)) p = true ->
  forall a, Str.contains p (a ++ ds ++ b)
            = Str.contains p a || Str.contains p b.
Proof.
  intros ds Hne Hds Hp.
  assert (Hstart : forall a, Str.startswith p (a ++ ds ++ b) = Str.startswith p a).
  { intros a. destruct ds as [|d ds']; [contradiction|].
    simpl in Hds. apply andb_true_iff in Hds. destruct Hds as [Hd _].
    now apply startswith_before_digit. }
  assert (Hmid : forall s, Str.all Char.isdecimal s = true ->
                           Str.contains p (s ++ b)
                           = Str.startswith p "" || Str.contains p b).
  { induction s as [|d s IH]; intros Hs.
    - simpl append. destruct (Str.startswith p "") eqn:E; [|reflexivity].
      destruct p; [|discriminate]. now destruct b.
    - simpl in Hs. apply andb_true_iff in Hs. destruct Hs as [Hd Hs].
      simpl append. cbn [Str.contains].
      change (String d (s ++ b)) with ("" ++ String d (s ++ b)).
      rewrite (startswith_before_digit d (s ++ b) Hd p "" Hp).
      rewrite (IH Hs). now destruct (Str.startswith p ""). }
  induction a as [|y a IH].
  - simpl append. rewrite (Hmid ds Hds). simpl. now rewrite orb_false_r.
  - simpl append. cbn [Str.contains].
    change (String y (a ++ ds ++ b)) with (String y a ++ ds ++ b).
    now rewrite Hstart, IH, orb_assoc.
Qed.

Lemma span_decimals_then c z : forall ds,
  Str.all Char.isdecimal ds = true -> Char.isdecimal c = false ->
  Str.span Char.isdecimal (ds ++ String c z) = (ds, String c z).
Proof.
  induction ds as [|d ds IH]; intros Hds Hc; simpl.
  - now rewrite Hc.
  - apply andb_true_iff in Hds. destruct Hds as [Hd Hds].
    now rewrite Hd, (IH Hds Hc).
Qed.

(** After a blank, the digits up to the next character that is no digit
    are the amount. *)
Lemma amount_after_blank_then ds c z :
  ds <> "" -> Str.all Char.isdecimal ds = true -> Char.isdecimal c = false ->
  Re.amount_after (String " " (ds ++ String c z)) = Some ds.
Proof.
  intros Hne Hds Hc. unfold Re.amount_after.
  destruct ds as [|d ds]; [contradiction|].
  assert (Hd : Char.isdecimal d = true).
  { simpl in Hds. now apply andb_true_iff in Hds. }
  change (Str.span Char.isspace (String " " (String d ds ++ String c z)))
    with (let (a, b) := Str.span Char.isspace (String d (ds ++ String c z)) in
          (String " " a, b)).
  rewrite (IntFacts.span_none Char.isspace d _ (CharFacts.decimal_not_space d Hd)).
  cbn [snd].
  change (String d (ds ++ String c z)) with (String d ds ++ String c z).
  now rewrite (span_decimals_then c z (String d ds) Hds Hc).
Qed.

End DigitFacts.

Section TwoComparisons.

Variable employee_df : list Employee.
Variable holidays : list Holiday.
Variable strptime : string -> option datetime.
Variable similarity_search : string -> nat -> list string.

Local Abbreviation route :=
  (retrieve_context employee_df holidays strptime similarity_search).

(** Only the first comparison of a question is applied: for all natural
    numbers [T1] and [T2], [T1] of no more decimal digits than [int]
    converts, "salary above T1 and below T2" is answered with the number
    of employees whose salary is above [T1], whatever [T2] is; [T2] is
    never converted, so its length does not matter. *)
Theorem second_comparison_is_ignored last_employee today (T1 T2 : N) :
  within_digit_limit (String.length (Str.of_N T1)) ->
  route last_employee today
    ("salary above " ++ Str.of_N T1 ++ " and below " ++ Str.of_N T2) =
  (Text (Str.of_nat
           (List.length (filter (fun e => (Z.of_N T1 <? Salary e)%Z) employee_df))
         ++ " employees match the salary condition."), last_employee).
Proof.
  intros HT1.
  pose proof (IntFacts.of_N_decimals T1) as D1.
  pose proof (IntFacts.of_N_nonempty T1) as N1.
  pose proof (IntFacts.of_N_decimals T2) as D2.
  pose proof (IntFacts.of_N_nonempty T2) as N2.
  set (head := "salary above " ++ Str.of_N T1 ++ " and below ").
  assert (Eq : "salary above " ++ Str.of_N T1 ++ " and below " ++ Str.of_N T2
               = head ++ Str.of_N T2).
  { unfold head. now rewrite !StrFacts.app_assoc. }
  assert (Enorm : normalize (head ++ Str.of_N T2) = head ++ Str.of_N T2).
  { apply normalize_before_decimals; try assumption; [reflexivity|].
    unfold head. rewrite !StrFacts.lower_app.
    now rewrite (StrFacts.lower_fixed Char.isdecimal _ CharFacts.decimal_lower D1). }
  assert (Esearch : Re.salary_search (head ++ Str.of_N T2)
                    = Some ("above", Str.of_N T1)).
  { rewrite <- Eq. cbn -[Re.amount_after Str.of_N].
    now rewrite (DigitFacts.amount_after_blank_then (Str.of_N T1) " " _ N1 D1 eq_refl). }
  assert (Elist : forall p, Str.all (fun c => negb (Char.isdecimal c)) p = true ->
                            Str.contains p (head ++ Str.of_N T2)
                            = Str.contains p "salary above "
                              || Str.contains p " and below ").
  { intros p Hp.
    rewrite (StrFacts.contains_before_decimals p _ D2 Hp). unfold head.
    now apply DigitFacts.contains_around_decimals. }
  rewrite Eq. unfold retrieve_context. rewrite Enorm.
  unfold salary_filter. rewrite Esearch, (Elist "salary" eq_refl).
  cbn [orb Str.contains Str.startswith Str.strip_prefix].
  change (Str.startswith "salary" "salary above ") with true. cbn [orb].
  rewrite (IntFacts.to_int_of_N T1 HT1). unfold salary_answer.
  now rewrite (Elist "list" eq_refl).
Qed.

End TwoComparisons.

(** Ravi and Meena earn more than 60000, and Ravi more than 90000 too:
    the answer counts both. *)
Lemma second_comparison_is_ignored_witness :
  Sample.route None Sample.today "salary above 60000 and below 90000" =
  (Text "2 employees match the salary condition.", None).
Proof.
  apply (second_comparison_is_ignored
           Sample.employees Sample.holidays Sample.strptime
           Sample.similarity_search None Sample.today 60000%N 90000%N).
  apply N.leb_le. reflexivity.
Defined.

(** ** A question with nothing in it *)

Section BlankQuestion.

Variable employee_df : list Employee.
Variable holidays : list Holiday.
Variable strptime : string -> option datetime.
Variable similarity_search : string -> nat -> list string.
Variable llm : string -> string.

Local Abbreviation route :=
  (retrieve_context employee_df holidays strptime similarity_search).

Lemma normalize_blank question : blank question -> normalize question = "".
Proof.
  intros H. unfold normalize, Str.strip.
  now rewrite (StrFacts.lower_blank question H), (StrFacts.lstrip_blank question H).
Qed.

(** An empty question, or one made of blanks only, is claimed by no block
    and gets "Information not available." with the pointer as it was,
    whatever the holidays and the index hold, as long as no employee has
    the empty string for a name; the endpoint passes that answer on.  A
    request without the key "question" is another matter: the endpoint
    ends in an exception. *)
Theorem blank_question_gets_no_answer last_employee today question :
  blank question ->
  Forall (fun e => Emp_Name e <> "") employee_df ->
  route last_employee today question =
    (Text "Information not available.", last_employee)
  /\ App.ask employee_df holidays strptime similarity_search llm
       last_employee today (Some question) =
     (Some "Information not available.", last_employee)
  /\ App.ask employee_df holidays strptime similarity_search llm
       last_employee today None = (None, last_employee).
Proof.
  intros Hb Hnames.
  assert (E : route last_employee today question =
              (Text "Information not available.", last_employee)).
  { unfold retrieve_context. rewrite (normalize_blank question Hb).
    change (salary_filter employee_df "") with (@Fallthrough string).
    unfold from_count_holidays, from_list_holidays, from_upcoming,
      from_specific_holiday, from_employee_count, from_id, from_name.
    change (count_holidays holidays "") with (@None string).
    change (list_holidays holidays "") with (@None string).
    change (upcoming_holiday holidays strptime today "")
      with (@Fallthrough string).
    replace (specific_holiday holidays "") with (@None Holiday).
    2:{ symmetry. apply LookupFacts.find_none_iff, Forall_forall.
        intros h _. reflexivity. }
    change (employee_count employee_df "") with (@None string).
    change (id_match employee_df "") with (@Fallthrough Employee).
    replace (name_match employee_df "") with (@None Employee).
    2:{ symmetry. apply LookupFacts.find_none_iff.
        eapply Forall_impl; [|exact Hnames].
        intros e He. cbv beta.
        destruct (Emp_Name e) eqn:En; [congruence | reflexivity]. }
    now destruct last_employee. }
  split; [exact E|]. split; [|reflexivity].
  unfold App.ask. now rewrite E.
Qed.

End BlankQuestion.

Lemma blank_question_gets_no_answer_witness :
  Sample.route (Some Sample.ravi) Sample.today (String "009" "  ") =
    (Text "Information not available.", Some Sample.ravi)
  /\ SampleApp.ask (Some Sample.ravi) Sample.today (Some (String "009" "  ")) =
     (Some "Information not available.", Some Sample.ravi)
  /\ SampleApp.ask (Some Sample.ravi) Sample.today None =
     (None, Some Sample.ravi).
Proof.
  apply (blank_question_gets_no_answer
           Sample.employees Sample.holidays Sample.strptime
           Sample.similarity_search SampleApp.llm).
  - reflexivity.
  - repeat constructor; discriminate.
Defined.

(** ** Where the pointer matters *)

Section PointerUse.

Variable employee_df : list Employee.
Variable holidays : list Holiday.
Variable strptime : string -> option datetime.
Variable similarity_search : string -> nat -> list string.

Local Abbreviation route :=
  (retrieve_context employee_df holidays strptime similarity_search).
Local Abbreviation resolved := (resolution employee_df holidays strptime).
Local Abbreviation reaches_ids := (reaches_id employee_df holidays strptime).
Local Abbreviation reaches_pron := (reaches_pronoun employee_df holidays strptime).

(** The pointer is read by the pronoun block alone: unless a question
    reaches that block and has one of the pronoun strings in it, the answer
    is the same whatever the pointer holds, empty or not. *)
Theorem pointer_read_for_pronouns_only pointer1 pointer2 today question :
  reaches_pron today (normalize question)
  && Str.contains_any pronouns (normalize question) = false ->
  fst (route pointer1 today question) = fst (route pointer2 today question).
Proof.
  unfold reaches_pronoun, reaches_id, reaches_specific_holiday.
  unfold retrieve_context, from_count_holidays, from_list_holidays,
    from_upcoming, from_specific_holiday, from_employee_count, from_id,
    from_name, from_pronoun, from_policy.
  set (pro := Str.contains_any pronouns (normalize question)).
  set (pol := Str.contains_any policy_words (normalize question)).
  destruct (salary_filter _ _); try reflexivity.
  destruct (count_holidays _ _); try reflexivity.
  destruct (list_holidays _ _); try reflexivity.
  destruct (upcoming_holiday _ _ _ _); try reflexivity.
  destruct (specific_holiday _ _); try reflexivity.
  destruct (employee_count _ _); try reflexivity.
  destruct (id_match _ _); try reflexivity.
  destruct (name_match _ _); try reflexivity.
  destruct pro; [discriminate|].
  intros _. destruct pointer1, pointer2; destruct pol; reflexivity.
Qed.

(** A call that resolves an employee gives the same result from any
    pointer. *)
Lemma resolving_call_ignores_pointer pointer today question emp :
  resolved today question = Some emp ->
  route pointer today question =
  (Text (employee_field_response emp (normalize question)), Some emp).
Proof.
  unfold resolution.
  destruct (reaches_ids today (normalize question)) eqn:Hr; [|discriminate].
  rewrite route_from_id by assumption. unfold from_id, from_name.
  destruct (id_match employee_df (normalize question)); try discriminate.
  - now intros [= ->].
  - intros H. now rewrite H.
Qed.

(** Asking the same question again, at the same instant, changes
    nothing: the second call gives the result of the first and leaves the
    pointer where the first left it. *)
Theorem asking_again_changes_nothing pointer today question :
  route (snd (route pointer today question)) today question =
  route pointer today question.
Proof.
  rewrite route_pointer.
  destruct (resolved today question) as [emp|] eqn:E; [|reflexivity].
  now rewrite !(resolving_call_ignores_pointer _ today question emp E).
Qed.

End PointerUse.

Lemma pointer_read_for_pronouns_only_witness :
  fst (Sample.route None Sample.today "Designation of Meena Iyer?") =
  fst (Sample.route (Some Sample.ravi) Sample.today "Designation of Meena Iyer?").
Proof.
  apply (pointer_read_for_pronouns_only
           Sample.employees Sample.holidays Sample.strptime
           Sample.similarity_search).
  vm_compute; reflexivity.
Defined.
